(** * orm/dynamic.py: dynamic collections

    A shallow embedding of [lib/sqlalchemy/orm/dynamic.py]: the pending-change
    tracker [CollectionHistory], the attribute controller
    [DynamicAttributeImpl], the generative query [AppenderQuery] and the
    loader registration [DynaLoader].

    Python objects are compared by identity throughout the module
    ([util.IdentitySet], [util.OrderedIdentitySet], [is], [is not]); an entity
    reference is therefore modelled by the identity of the object it points
    to, with [None] as a reference of its own. *)

From stdpp Require Import base strings list gmap.
From Stdlib Require Import ZArith.

Set Default Proof Using "Type".
Local Open Scope Z_scope.

(** ** Entity references *)

Inductive value : Type :=
  | PyNone
  | Obj (oid : positive).

#[global] Instance value_eq_dec : EqDecision value.
Proof. solve_decision. Defined.

Definition is_not_None (v : value) : bool :=
  match v with PyNone => false | Obj _ => true end.

(** ** Exceptions and results *)

(** [RecursionError] is what Python raises when [_get_collection_history] and
    [AppenderQuery._iter] call each other beyond the interpreter's recursion
    limit.  [DanglingReference] is not a Python exception: it stands for the
    use of a reference to a query object that the object store does not hold,
    which no Python program can produce. *)
Inductive exn : Type :=
  | InvalidRequestError
  | DetachedInstanceError
  | NotImplementedError
  | TypeError
  | RecursionError
  | DanglingReference.

Inductive result (A : Type) : Type :=
  | Ok (a : A)
  | Raise (e : exn).
Arguments Ok {A} a.
Arguments Raise {A} e.

(** ** Identity sets *)

(** Modelled from the spec: [util.IdentitySet] and [util.OrderedIdentitySet]
    live in the [util] package, which is not part of the sources at hand.  The
    spec describes them as an "ordered set of entity references,
    identity-deduplicated (object identity, not equality), insertion order
    preserved": a list of references without repetition, in insertion order.
    Both classes keep their members in a dictionary keyed by [id], and build
    the result of [union], [difference] and [intersection] from the members of
    the receiver, in the receiver's order. *)
Module IdentitySet.

Definition t : Type := list value.

Definition empty : t := [].

Definition contains (x : value) (s : t) : bool := bool_decide (x ∈ s).

Definition add (x : value) (s : t) : t :=
  if contains x s then s else s ++ [x].

(** [remove] raises [KeyError] on a member that is missing; its one caller,
    [add_removed], tests membership first. *)
Definition remove (x : value) (s : t) : t := filter (λ y, y ≠ x) s.

Definition update (s : t) (iterable : list value) : t :=
  foldl (λ acc x, add x acc) s iterable.

Definition of_iterable (iterable : list value) : t := update empty iterable.

Definition union (s : t) (iterable : list value) : t := update s iterable.

Definition difference (s : t) (iterable : list value) : t :=
  filter (λ y, y ∉ iterable) s.

Definition intersection (s : t) (iterable : list value) : t :=
  filter (λ y, y ∈ iterable) s.

Definition to_list (s : t) : list value := s.

End IdentitySet.

(** ** attributes.History *)

Record History : Type := mkHistory {
  added : list value;
  unchanged : list value;
  deleted : list value;
}.

(** ** CollectionHistory *)

Module CollectionHistory.

Record t : Type := mk {
  added_items : IdentitySet.t;
  deleted_items : IdentitySet.t;
  unchanged_items : IdentitySet.t;
  _reconcile_collection : bool;
}.

(** [CollectionHistory(attr, state)]: the branch without [apply_to]. *)
Definition init : t :=
  {| deleted_items := IdentitySet.empty;
     added_items := IdentitySet.empty;
     unchanged_items := IdentitySet.empty;
     _reconcile_collection := false |}.

(** [CollectionHistory(attr, state, apply_to=c)]: [coll] is what iterating
    [AppenderQuery(attr, state).autoflush(False)] has produced.  The new
    object shares [added_items] and [deleted_items] with [apply_to]. *)
Definition init_apply_to (apply_to : t) (coll : list value) : t :=
  {| unchanged_items := IdentitySet.of_iterable coll;
     added_items := added_items apply_to;
     deleted_items := deleted_items apply_to;
     _reconcile_collection := true |}.

Definition added_plus_unchanged (self : t) : list value :=
  IdentitySet.to_list
    (IdentitySet.union (added_items self) (unchanged_items self)).

Definition all_items (self : t) : list value :=
  IdentitySet.to_list
    (IdentitySet.union
       (IdentitySet.union (added_items self) (unchanged_items self))
       (deleted_items self)).

Definition as_history (self : t) : History :=
  if _reconcile_collection self then
    let added := IdentitySet.difference (added_items self) (unchanged_items self) in
    let deleted := IdentitySet.intersection (deleted_items self) (unchanged_items self) in
    let unchanged := IdentitySet.difference (unchanged_items self) deleted in
    mkHistory (IdentitySet.to_list added) (IdentitySet.to_list unchanged)
              (IdentitySet.to_list deleted)
  else
    mkHistory (IdentitySet.to_list (added_items self))
              (IdentitySet.to_list (unchanged_items self))
              (IdentitySet.to_list (deleted_items self)).

(** [list(self.added_items)[index]], with Python's negative indices. *)
Definition indexed (self : t) (index : Z) : option value :=
  let l := IdentitySet.to_list (added_items self) in
  let n := Z.of_nat (length l) in
  if (0 <=? index) && (index <? n) then l !! Z.to_nat index
  else if (index <? 0) && (0 <=? index + n) then l !! Z.to_nat (index + n)
  else None.

Definition add_added (value : value) (self : t) : t :=
  {| added_items := IdentitySet.add value (added_items self);
     deleted_items := deleted_items self;
     unchanged_items := unchanged_items self;
     _reconcile_collection := _reconcile_collection self |}.

Definition add_removed (value : value) (self : t) : t :=
  if IdentitySet.contains value (added_items self) then
    {| added_items := IdentitySet.remove value (added_items self);
       deleted_items := deleted_items self;
       unchanged_items := unchanged_items self;
       _reconcile_collection := _reconcile_collection self |}
  else
    {| added_items := added_items self;
       deleted_items := IdentitySet.add value (deleted_items self);
       unchanged_items := unchanged_items self;
       _reconcile_collection := _reconcile_collection self |}.

End CollectionHistory.

(** ** Names imported from packages outside this file *)

(** The passivity flags of [orm.attributes]: bit masks, tested with [&].  The
    module that assigns their bits is not part of the sources at hand, so the
    bits are parameters of the development. *)
Class AttributeFlags : Type := {
  SQL_OK : Z;
  INIT_OK : Z;
  PASSIVE_OFF : Z;
  PASSIVE_NO_INITIALIZE : Z;
}.

(** What the flags' names promise: [PASSIVE_OFF] allows SQL, and
    [PASSIVE_NO_INITIALIZE] does not allow initialisation. *)
Class AttributeFlagsLaws (F : AttributeFlags) : Prop := {
  PASSIVE_OFF_allows_SQL : Z.land PASSIVE_OFF SQL_OK ≠ 0;
  PASSIVE_NO_INITIALIZE_no_INIT : Z.land PASSIVE_NO_INITIALIZE INIT_OK = 0;
}.

(** Python truth of [passive & flag]. *)
Definition has_flag (passive flag : Z) : bool := negb (Z.land passive flag =? 0).

(** An opaque handle on a SQL expression object (criterion, selectable, join
    target, mapper). *)
Definition sql_expr : Type := positive.

(** Modelled from the spec: the statement-building engine ([orm.query.Query])
    is an external collaborator that "accepts a declarative query/filter
    tree".  Its methods are generative; each call returns a new statement made
    of the receiver and of the arguments of the call, which is what the
    constructors below record. *)
Module Query.

Inductive t : Type :=
  | new (entities : list sql_expr)
  | select_from (s : t) (froms : list sql_expr)
  | where_ (s : t) (criteria : list sql_expr)
  | order_by (s : t) (criteria : list sql_expr)
  | filter_by (s : t) (kwargs : list (string * sql_expr))
  | join (s : t) (target : sql_expr) (props : list sql_expr)
         (kwargs : list (string * sql_expr))
  | outerjoin (s : t) (target : sql_expr) (props : list sql_expr)
              (kwargs : list (string * sql_expr))
  | limit (s : t) (limit : option Z)
  | offset (s : t) (offset : option Z).

Fixpoint _limit_clause (s : t) : option Z :=
  match s with
  | new _ => None
  | limit _ l => l
  | select_from s _ | where_ s _ | order_by s _ | filter_by s _
  | join s _ _ _ | outerjoin s _ _ _ | offset s _ => _limit_clause s
  end.

Fixpoint _offset_clause (s : t) : option Z :=
  match s with
  | new _ => None
  | offset _ o => o
  | select_from s _ | where_ s _ | order_by s _ | filter_by s _
  | join s _ _ _ | outerjoin s _ _ _ | limit s _ => _offset_clause s
  end.

End Query.

(** [sql.util._make_slice], which is not part of the sources at hand either:
    from the current limit and offset and the bounds of the slice to the new
    limit and offset. *)
Class SqlUtil : Type := {
  _make_slice : option Z → option Z → option Z → option Z → option Z * option Z;
}.

(** ** The mapped instance and its session *)

Module InstanceState.

(** [committed_state] is the pending-change map, from attribute keys to the
    [CollectionHistory] of the attribute.  [obj] is the instance the state
    belongs to, what [state.obj()] returns, known by its identity; [mapper]
    is the mapper of that instance, what [object_mapper] finds for it. *)
Record t : Type := mk {
  key : option positive;
  committed_state : gmap string CollectionHistory.t;
  modified : bool;
  obj : positive;
  mapper : sql_expr;
}.

Definition has_identity (self : t) : bool :=
  match key self with Some _ => true | None => false end.

Definition with_committed_state (cs : gmap string CollectionHistory.t) (self : t) : t :=
  {| key := key self; committed_state := cs; modified := modified self;
     obj := obj self; mapper := mapper self |}.

(** [state._modified_event(dict_, attr, NEVER_SET)] once the attribute has
    its entry in [committed_state]: the state is flagged as modified. *)
Definition _modified_event (self : t) : t :=
  {| key := key self; committed_state := committed_state self; modified := true;
     obj := obj self; mapper := mapper self |}.

End InstanceState.

(** The session an instance is attached to, as this file uses it:
    [sess.autoflush], [instance in sess], [sess.flush()] and
    [sess.execute(statement).scalars()].  [sess_execute] gives the rows of
    a call of [execute] that does not flush.  A session whose autoflush is on
    flushes inside [execute] as well, on its own account and whatever the
    [_autoflush] of the query says; that flush belongs to the session and is
    not part of this model, which is why the properties that read the rows
    while changes are pending are stated for sessions with autoflush off. *)
Record Session : Type := mkSession {
  sess_autoflush : bool;
  sess_contains : bool;
  sess_flush : InstanceState.t → InstanceState.t;
  sess_execute : Query.t → list value;
}.

Inductive Direction : Type := ONETOMANY | MANYTOONE | MANYTOMANY.

#[global] Instance Direction_eq_dec : EqDecision Direction.
Proof. solve_decision. Defined.

Record RelationshipProperty : Type := mkRelationshipProperty {
  direction : Direction;
  prop_mapper : sql_expr;
  mapper_selectable : sql_expr;
  secondary : option sql_expr;
  prop_order_by : list sql_expr;
  query_class : option sql_expr;
  (** [prop._with_parent(instance, alias_secondary=False)] *)
  _with_parent : positive → sql_expr;
}.

(** What an append or remove listener is handed as [initiator]: an object
    with a [parent_token], known by its identity. *)
Record Initiator : Type := mkInitiator {
  init_id : positive;
  init_parent_token : positive;
}.

Module AttributeImpl.

(** The instance data of a [DynamicAttributeImpl]: what the base class
    [attributes.AttributeImpl] keeps ([key], [dispatch], [trackparent],
    [parent_token]) and what [DynamicAttributeImpl.__init__] adds.
    [dispatch_remove] counts the remove listeners, whose results are
    dropped; [prop] is [object_mapper(instance)._props[key]]. *)
Record t : Type := mk {
  impl_id : positive;
  key : string;
  parent_token : positive;
  trackparent : bool;
  dispatch_append : list (value → Initiator → value);
  dispatch_remove : nat;
  target_mapper : sql_expr;
  order_by : list sql_expr;
  prop : RelationshipProperty;
  append_token_id : positive;
  remove_token_id : positive;
}.

(** [attributes.Event(self, OP_APPEND)], memoized. *)
Definition _append_token (self : t) : Initiator :=
  {| init_id := append_token_id self; init_parent_token := parent_token self |}.

Definition _remove_token (self : t) : Initiator :=
  {| init_id := remove_token_id self; init_parent_token := parent_token self |}.

(** [initiator is not self] *)
Definition is_not_self (initiator : option Initiator) (self : t) : bool :=
  match initiator with
  | None => true
  | Some i => negb (init_id i =? impl_id self)%positive
  end.

End AttributeImpl.

(** An [AppenderQuery] object: its [__dict__]. *)
Record AppenderQueryObject : Type := mkAppenderQuery {
  _statement : Query.t;
  _autoflush : bool;
  instance : positive;
  attr : AttributeImpl.t;
  mapper : sql_expr;
}.

(** ** The world the methods run in *)

Inductive Fired : Type :=
  | FiredAppend (v : value)
  | FiredRemove (v : value).

#[global] Instance Fired_eq_dec : EqDecision Fired.
Proof. solve_decision. Defined.

(** One parent instance with its [state] and [dict_], the session
    [object_session(instance)] finds for it, the store of the query objects
    built so far, and what has been observed from outside: the calls of
    [fire_append_event] and [fire_remove_event] in [events], those of
    [sethasparent] in [hasparent]. *)
Record World : Type := mkWorld {
  state : InstanceState.t;
  dict_ : gmap string bool;
  object_session : option Session;
  queries : gmap positive AppenderQueryObject;
  events : list Fired;
  hasparent : list (value * bool);
}.

(** Modelled from the spec: [InstanceState.detached] is not part of the
    sources at hand; the spec's detached instance is one "with identity but no
    reachable session". *)
Definition detached (w : World) : bool :=
  InstanceState.has_identity (state w) &&
  match object_session w with None => true | Some _ => false end.

Definition M (A : Type) : Type := World → result (A * World).

#[global] Instance M_ret : MRet M := λ A a w, Ok (a, w).

#[global] Instance M_bind : MBind M := λ A B f m w,
  match m w with
  | Ok (a, w') => f a w'
  | Raise e => Raise e
  end.

Definition raise {A : Type} (e : exn) : M A := λ _, Raise e.

Definition gets {A : Type} (f : World → A) : M A := λ w, Ok (f w, w).

Definition modify (f : World → World) : M unit := λ w, Ok (tt, f w).

Fixpoint for_each {A : Type} (l : list A) (body : A → M unit) : M unit :=
  match l with
  | [] => mret tt
  | x :: l' => body x ;; for_each l' body
  end.

Definition with_state (f : InstanceState.t → InstanceState.t) (w : World) : World :=
  {| state := f (state w); dict_ := dict_ w; object_session := object_session w;
     queries := queries w; events := events w; hasparent := hasparent w |}.

Definition with_dict (f : gmap string bool → gmap string bool) (w : World) : World :=
  {| state := state w; dict_ := f (dict_ w); object_session := object_session w;
     queries := queries w; events := events w; hasparent := hasparent w |}.

Definition with_queries
    (f : gmap positive AppenderQueryObject → gmap positive AppenderQueryObject)
    (w : World) : World :=
  {| state := state w; dict_ := dict_ w; object_session := object_session w;
     queries := f (queries w); events := events w; hasparent := hasparent w |}.

Definition record_event (e : Fired) (w : World) : World :=
  {| state := state w; dict_ := dict_ w; object_session := object_session w;
     queries := queries w; events := events w ++ [e]; hasparent := hasparent w |}.

Definition record_hasparent (v : value) (b : bool) (w : World) : World :=
  {| state := state w; dict_ := dict_ w; object_session := object_session w;
     queries := queries w; events := events w; hasparent := hasparent w ++ [(v, b)] |}.

(** ** sql.base.Generative *)

(** Modelled from the spec: [Generative] and the [_generative] decorator live
    in [sql/base.py], which is not part of the sources at hand.  The spec has
    every builder method return "a new, independent copy of the query with the
    requested mutation applied, never mutating the receiver", built as "a
    shallow clone of the builder struct with one field replaced": [_generate]
    allocates a new object whose [__dict__] is a copy of the receiver's, and
    the decorated method body runs on that copy, which is returned. *)
Module Generative.

Definition deref (self : positive) : M AppenderQueryObject := λ w,
  match queries w !! self with
  | Some q => Ok (q, w)
  | None => Raise DanglingReference
  end.

(** Allocation of a new object. *)
Definition alloc (q : AppenderQueryObject) : M positive := λ w,
  let l := fresh (dom (queries w)) in
  Ok (l, with_queries (insert l q) w).

Definition _generate (self : positive) : M positive :=
  q ← deref self; alloc q.

(** Assignment of attributes of [self]. *)
Definition assign (self : positive) (f : AppenderQueryObject → AppenderQueryObject)
  : M unit :=
  q ← deref self; modify (with_queries (insert self (f q))).

Definition _generative (fn : positive → M unit) (self : positive) : M positive :=
  self' ← _generate self; fn self' ;; mret self'.

End Generative.

(** ** AppenderQuery: construction, builder methods, execution *)

Module AppenderQueryBuilder.

Definition set__statement (s : Query.t) (q : AppenderQueryObject) : AppenderQueryObject :=
  {| _statement := s; _autoflush := _autoflush q; instance := instance q;
     attr := attr q; mapper := mapper q |}.

Definition set__autoflush (b : bool) (q : AppenderQueryObject) : AppenderQueryObject :=
  {| _statement := _statement q; _autoflush := b; instance := instance q;
     attr := attr q; mapper := mapper q |}.

(** The object [__init__] leaves behind.  [prop] stands for
    [mapper._props[self.attr.key]]. *)
Definition initial (attr : AttributeImpl.t) (state : InstanceState.t)
  : AppenderQueryObject :=
  let instance := InstanceState.obj state in
  let mapper := InstanceState.mapper state in
  let prop := AttributeImpl.prop attr in
  let s0 := Query.new [AttributeImpl.target_mapper attr] in
  let s1 := match secondary prop with
            | Some sec => Query.select_from s0 [mapper_selectable prop; sec]
            | None => s0
            end in
  let s2 := Query.where_ s1 [_with_parent prop instance] in
  let s3 := match AttributeImpl.order_by attr with
            | [] => s2
            | _ :: _ => Query.order_by s2 (AttributeImpl.order_by attr)
            end in
  {| _statement := s3; _autoflush := true; instance := instance; attr := attr;
     mapper := mapper |}.

(** [AppenderQuery(attr, state)] *)
Definition __init__ (attr : AttributeImpl.t) : M positive :=
  state ← gets state;
  Generative.alloc (initial attr state).

Definition autoflush (setting : bool) : positive → M positive :=
  Generative._generative (λ self, Generative.assign self (set__autoflush setting)).

(** [where] is a reserved word of Rocq. *)
Definition where_ (criteria : list sql_expr) : positive → M positive :=
  Generative._generative (λ self,
    Generative.assign self (λ q, set__statement (Query.where_ (_statement q) criteria) q)).

Definition filter (criteria : list sql_expr) (self : positive) : M positive :=
  where_ criteria self.

Definition order_by (criteria : list sql_expr) : positive → M positive :=
  Generative._generative (λ self,
    Generative.assign self (λ q, set__statement (Query.order_by (_statement q) criteria) q)).

Definition filter_by (kwargs : list (string * sql_expr)) : positive → M positive :=
  Generative._generative (λ self,
    Generative.assign self (λ q, set__statement (Query.filter_by (_statement q) kwargs) q)).

Definition join (target : sql_expr) (props : list sql_expr)
    (kwargs : list (string * sql_expr)) : positive → M positive :=
  Generative._generative (λ self,
    Generative.assign self
      (λ q, set__statement (Query.join (_statement q) target props kwargs) q)).

Definition outerjoin (target : sql_expr) (props : list sql_expr)
    (kwargs : list (string * sql_expr)) : positive → M positive :=
  Generative._generative (λ self,
    Generative.assign self
      (λ q, set__statement (Query.outerjoin (_statement q) target props kwargs) q)).

Definition limit (limit : option Z) : positive → M positive :=
  Generative._generative (λ self,
    Generative.assign self (λ q, set__statement (Query.limit (_statement q) limit) q)).

Definition offset (offset : option Z) : positive → M positive :=
  Generative._generative (λ self,
    Generative.assign self (λ q, set__statement (Query.offset (_statement q) offset) q)).

Definition slice `{SqlUtil} (start stop : option Z) : positive → M positive :=
  Generative._generative (λ self,
    Generative.assign self (λ q,
      let '(limit_clause, offset_clause) :=
        _make_slice (Query._limit_clause (_statement q))
                    (Query._offset_clause (_statement q)) start stop in
      set__statement
        (Query.offset (Query.limit (_statement q) limit_clause) offset_clause) q)).

(** The [session] property. *)
Definition session (self : AppenderQueryObject) : M (option Session) :=
  sess ← gets object_session;
  match sess with
  | Some s =>
      if _autoflush self && sess_autoflush s && sess_contains s
      then modify (with_state (sess_flush s))
      else mret tt
  | None => mret tt
  end ;;
  st ← gets state;
  if negb (InstanceState.has_identity st) then mret None else mret sess.

(** The rows are those of an [execute] that does not flush; see [Session]. *)
Definition _execute (self : AppenderQueryObject) (sess : option Session)
  : M (list value) :=
  sess ← match sess with
         | Some s => mret s
         | None =>
             found ← gets object_session;
             match found with
             | Some s => mret s
             | None => raise DetachedInstanceError
             end
         end;
  mret (sess_execute sess (_statement self)).

End AppenderQueryBuilder.

(** ** Reading the pending changes and running the query *)

(** The interpreter's bound on nested calls. *)
Definition recursion_limit : nat := 1000.

(** [DynamicAttributeImpl._get_collection_history] and [AppenderQuery._iter]
    call each other: the first iterates a query to reconcile the pending
    changes of a persisted instance, the second reads the pending changes
    when there is no session to run the query.  [fuel] bounds the depth of
    the calls. *)
Fixpoint _get_collection_history `{Flags : AttributeFlags} (fuel : nat) (self : AttributeImpl.t) (passive : Z)
  : M CollectionHistory.t :=
  st ← gets state;
  let c := match InstanceState.committed_state st !! AttributeImpl.key self with
           | Some c => c
           | None => CollectionHistory.init
           end in
  if InstanceState.has_identity st && has_flag passive INIT_OK then
    match fuel with
    | O => raise RecursionError
    | S fuel' =>
        q ← AppenderQueryBuilder.__init__ self;
        coll ← AppenderQueryBuilder.autoflush false q;
        rows ← _iter fuel' coll;
        mret (CollectionHistory.init_apply_to c rows)
    end
  else mret c
with _iter `{Flags : AttributeFlags} (fuel : nat) (self : positive) : M (list value) :=
  q ← Generative.deref self;
  sess ← AppenderQueryBuilder.session q;
  match sess with
  | None =>
      is_detached ← gets detached;
      if (is_detached : bool) then raise DetachedInstanceError
      else
        match fuel with
        | O => raise RecursionError
        | S fuel' =>
            c ← _get_collection_history fuel' (attr q) PASSIVE_NO_INITIALIZE;
            mret (IdentitySet.to_list (CollectionHistory.added_items c))
        end
  | Some s => AppenderQueryBuilder._execute q (Some s)
  end.

(** ** DynamicAttributeImpl *)

Module DynamicAttributeImpl.

Definition uses_objects : bool := true.
Definition default_accepts_scalar_loader : bool := false.
Definition supports_population : bool := false.
Definition collection : bool := false.
Definition dynamic : bool := true.

(** What [get] returns: the pending additions, or a query object. *)
Inductive get_result : Type :=
  | Items (s : IdentitySet.t)
  | QueryObject (q : positive).

Definition _get_collection_history `{Flags : AttributeFlags} (self : AttributeImpl.t) (passive : Z)
  : M CollectionHistory.t :=
  _get_collection_history recursion_limit self passive.

Definition get `{Flags : AttributeFlags} (self : AttributeImpl.t) (passive : Z) : M get_result :=
  if negb (has_flag passive SQL_OK) then
    c ← _get_collection_history self PASSIVE_NO_INITIALIZE;
    mret (Items (CollectionHistory.added_items c))
  else
    q ← AppenderQueryBuilder.__init__ self;
    mret (QueryObject q).

Definition get_collection `{Flags : AttributeFlags} (self : AttributeImpl.t) (passive : Z) : M (list value) :=
  if negb (has_flag passive SQL_OK) then
    c ← _get_collection_history self passive;
    mret (IdentitySet.to_list (CollectionHistory.added_items c))
  else
    history ← _get_collection_history self passive;
    mret (CollectionHistory.added_plus_unchanged history).

(** The entry of [committed_state] is created when missing; the result is
    the reference to the stored object, which is its key in the map. *)
Definition _modified_event (self : AttributeImpl.t) : M string :=
  let key := AttributeImpl.key self in
  modify (with_state (λ st,
    match InstanceState.committed_state st !! key with
    | Some _ => st
    | None =>
        InstanceState.with_committed_state
          (<[key := CollectionHistory.init]> (InstanceState.committed_state st)) st
    end)) ;;
  modify (with_state InstanceState._modified_event) ;;
  modify (with_dict (insert key true)) ;;
  mret key.

(** In-place update of the stored [CollectionHistory] behind a reference. *)
Definition update_history (ref : string) (f : CollectionHistory.t → CollectionHistory.t)
  : M unit :=
  modify (with_state (λ st,
    InstanceState.with_committed_state
      (alter f ref (InstanceState.committed_state st)) st)).

Definition effective_initiator (initiator : option Initiator) (token : Initiator)
  : Initiator :=
  match initiator with Some i => i | None => token end.

Definition fire_append_event (self : AttributeImpl.t) (value : value)
    (initiator : option Initiator) (collection_history : option string) : M unit :=
  collection_history ← match collection_history with
                       | None => _modified_event self
                       | Some ref => mret ref
                       end;
  update_history collection_history (CollectionHistory.add_added value) ;;
  modify (record_event (FiredAppend value)) ;;
  let value :=
    foldl (λ v fn, fn v (effective_initiator initiator (AttributeImpl._append_token self)))
          value (AttributeImpl.dispatch_append self) in
  if AttributeImpl.trackparent self && is_not_None value
  then modify (record_hasparent value true)
  else mret tt.

Definition fire_remove_event (self : AttributeImpl.t) (value : value)
    (initiator : option Initiator) (collection_history : option string) : M unit :=
  collection_history ← match collection_history with
                       | None => _modified_event self
                       | Some ref => mret ref
                       end;
  update_history collection_history (CollectionHistory.add_removed value) ;;
  (if AttributeImpl.trackparent self && is_not_None value
   then modify (record_hasparent value false)
   else mret tt) ;;
  modify (record_event (FiredRemove value)).

(** [value] is [None] or an iterable; [initiator] is tested for truth and
    then for its [parent_token]. *)
Definition set `{Flags : AttributeFlags} (self : AttributeImpl.t) (value : option (list value))
    (initiator : option Initiator) (pop : bool) : M unit :=
  if match initiator with
     | Some i => (init_parent_token i =? AttributeImpl.parent_token self)%positive
     | None => false
     end
  then mret tt
  else
    match value with
    | None => if pop then mret tt else raise TypeError
    | Some iterable =>
        let new_values := iterable in
        st ← gets state;
        old_collection ←
          (if InstanceState.has_identity st then
             r ← get self PASSIVE_OFF;
             match r with
             | Items s => mret (IdentitySet.of_iterable (IdentitySet.to_list s))
             | QueryObject q =>
                 rows ← _iter recursion_limit q;
                 mret (IdentitySet.of_iterable rows)
             end
           else mret IdentitySet.empty);
        collection_history ← _modified_event self;
        st ← gets state;
        let added_items :=
          match InstanceState.committed_state st !! collection_history with
          | Some c => CollectionHistory.added_items c
          | None => IdentitySet.empty
          end in
        let old_collection :=
          if negb (InstanceState.has_identity st) then added_items
          else IdentitySet.union old_collection added_items in
        let constants := IdentitySet.intersection old_collection new_values in
        let additions :=
          IdentitySet.difference (IdentitySet.of_iterable new_values) constants in
        let removals := IdentitySet.difference old_collection constants in
        for_each new_values (λ member,
          if IdentitySet.contains member additions
          then fire_append_event self member None (Some collection_history)
          else mret tt) ;;
        for_each (IdentitySet.to_list removals) (λ member,
          fire_remove_event self member None (Some collection_history))
    end.

Definition delete : M unit := raise NotImplementedError.

Definition set_committed_value (self : AttributeImpl.t) (value : list value) : M unit :=
  raise NotImplementedError.

Definition get_history `{Flags : AttributeFlags} (self : AttributeImpl.t) (passive : Z) : M History :=
  c ← _get_collection_history self passive;
  mret (CollectionHistory.as_history c).

Definition get_all_pending `{Flags : AttributeFlags} (self : AttributeImpl.t) (passive : Z) : M (list value) :=
  c ← _get_collection_history self passive;
  mret (CollectionHistory.all_items c).

Definition append (self : AttributeImpl.t) (value : value)
    (initiator : option Initiator) : M unit :=
  if AttributeImpl.is_not_self initiator self
  then fire_append_event self value initiator None
  else mret tt.

Definition remove (self : AttributeImpl.t) (value : value)
    (initiator : option Initiator) : M unit :=
  if AttributeImpl.is_not_self initiator self
  then fire_remove_event self value initiator None
  else mret tt.

Definition pop (self : AttributeImpl.t) (value : value)
    (initiator : option Initiator) : M unit :=
  remove self value initiator.

End DynamicAttributeImpl.

(** What the engine answers to a [SELECT] of the row count over the subquery of a
    statement, [sess.execute(stmt).scalar()]: the engine lies outside
    [orm/dynamic.py] and the answer is a parameter.  As for [sess_execute],
    the answer is that of an [execute] that does not flush. *)
Class SqlFunc : Type := {
  execute_count : Session → Query.t → Z;
}.

(** What [count] comes to: the count, or the [AttributeError] of
    [None.execute] when the second reading of [self.session] finds no
    session. *)
Inductive count_outcome : Type :=
  | Counted (n : Z)
  | AttributeError_NoneType_execute.

(** ** AppenderQuery: the collection protocol *)

Module AppenderQuery.

Definition _iter `{Flags : AttributeFlags} (self : positive) : M (list value) := _iter recursion_limit self.

Definition all `{Flags : AttributeFlags} (self : positive) : M (list value) := _iter self.

Definition __iter__ `{Flags : AttributeFlags} (self : positive) : M (list value) := _iter self.

Definition append (self : positive) (item : value) : M unit :=
  q ← Generative.deref self;
  DynamicAttributeImpl.append (attr q) item None.

Definition remove (self : positive) (item : value) : M unit :=
  q ← Generative.deref self;
  DynamicAttributeImpl.remove (attr q) item None.

Definition extend (self : positive) (iterator : list value) : M unit :=
  for_each iterator (λ item,
    q ← Generative.deref self;
    DynamicAttributeImpl.append (attr q) item None).

(** [self._statement] is never [None]: the branch of [first] that runs is
    [self._iter().first()], the first row or [None]. *)
Definition first `{Flags : AttributeFlags} (self : positive) : M (option value) :=
  rows ← _iter self;
  mret (head rows).

(** [self.session] is read twice when there is a session: once for the test
    and once to execute the statement. *)
Definition count `{Flags : AttributeFlags} `{SqlFunc} (self : positive) : M count_outcome :=
  q ← Generative.deref self;
  sess ← AppenderQueryBuilder.session q;
  match sess with
  | None =>
      c ← DynamicAttributeImpl._get_collection_history (attr q) PASSIVE_NO_INITIALIZE;
      mret (Counted (Z.of_nat (length (IdentitySet.to_list (CollectionHistory.added_items c)))))
  | Some _ =>
      sess ← AppenderQueryBuilder.session q;
      match sess with
      | Some s => mret (Counted (execute_count s (_statement q)))
      | None => mret AttributeError_NoneType_execute
      end
  end.

End AppenderQuery.

(** ** DynaLoader *)

Module DynaLoader.

Record t : Type := mk {
  is_class_level : bool;
  uselist : bool;
  parent_property : RelationshipProperty;
}.

(** The keyword arguments [strategies._register_attribute] is called with. *)
Record registration : Type := mkRegistration {
  reg_property : RelationshipProperty;
  reg_mapper : sql_expr;
  useobject : bool;
  impl_class_is_DynamicAttributeImpl : bool;
  reg_target_mapper : sql_expr;
  reg_order_by : list sql_expr;
  reg_query_class : option sql_expr;
}.

(** The one message [util.warn] is called with: the loader cannot be used
    with many-to-one/one-to-one relationships, "This warning will be an
    exception in a future release." *)
Inductive warning : Type :=
  | WarnCannotBeUsed (property : RelationshipProperty).

(** The loader as the call leaves it, and the outcome of the call: the
    exception raised, or the warnings emitted and the attribute registered. *)
Definition init_class_attribute (self : t) (mapper : sql_expr)
  : t * result (list warning * registration) :=
  let self := {| is_class_level := true; uselist := uselist self;
                 parent_property := parent_property self |} in
  pair self $
  if negb (uselist self) then Raise InvalidRequestError
  else
    let warnings :=
      if bool_decide (direction (parent_property self) ∉ [ONETOMANY; MANYTOMANY])
      then [WarnCannotBeUsed (parent_property self)]
      else [] in
    Ok (warnings,
        {| reg_property := parent_property self;
           reg_mapper := mapper;
           useobject := true;
           impl_class_is_DynamicAttributeImpl := true;
           reg_target_mapper := prop_mapper (parent_property self);
           reg_order_by := prop_order_by (parent_property self);
           reg_query_class := query_class (parent_property self) |}).

End DynaLoader.

(** ** Sample objects *)

(** One assignment of the flags' bits that obeys the laws.  With it, 29 is
    [PASSIVE_OFF] without [SQL_OK]. *)
Definition sample_flags : AttributeFlags :=
  {| SQL_OK := 2; INIT_OK := 8; PASSIVE_OFF := 31; PASSIVE_NO_INITIALIZE := 22 |}.

(** A [_make_slice] for integer bounds: the start is added to the offset,
    an offset of 0 is no offset, and the stop gives the limit. *)
Definition sample_sql_util : SqlUtil :=
  {| _make_slice := λ limit_clause offset_clause start stop,
       let shifted a :=
         let offset := default 0 offset_clause + a in
         if offset =? 0 then None else Some offset in
       match start, stop with
       | Some a, Some b => (Some (b - a), shifted a)
       | None, Some b => (Some b, offset_clause)
       | Some a, None => (limit_clause, shifted a)
       | None, None => (limit_clause, offset_clause)
       end |}.

Definition sample_property : RelationshipProperty :=
  {| direction := ONETOMANY; prop_mapper := 10%positive;
     mapper_selectable := 11%positive; secondary := None; prop_order_by := [];
     query_class := None; _with_parent := λ instance, (100 + instance)%positive |}.

Definition sample_attr : AttributeImpl.t :=
  {| AttributeImpl.impl_id := 1%positive;
     AttributeImpl.key := "addresses";
     AttributeImpl.parent_token := 2%positive;
     AttributeImpl.trackparent := true;
     AttributeImpl.dispatch_append := [];
     AttributeImpl.dispatch_remove := 0%nat;
     AttributeImpl.target_mapper := 10%positive;
     AttributeImpl.order_by := [];
     AttributeImpl.prop := sample_property;
     AttributeImpl.append_token_id := 3%positive;
     AttributeImpl.remove_token_id := 4%positive |}.

Definition sample_state (key : option positive) : InstanceState.t :=
  {| InstanceState.key := key;
     InstanceState.committed_state := ∅;
     InstanceState.modified := false;
     InstanceState.obj := 5%positive;
     InstanceState.mapper := 20%positive |}.

(** A session that returns [rows] for every statement and whose flush leaves
    the instance as it is. *)
Definition sample_session (rows : list value) : Session :=
  {| sess_autoflush := true; sess_contains := true;
     sess_flush := λ st, st; sess_execute := λ _, rows |}.

Definition sample_world (key : option positive) (sess : option Session) : World :=
  {| state := sample_state key; dict_ := ∅; object_session := sess;
     queries := ∅; events := []; hasparent := [] |}.

(** A transient instance: no identity, no session. *)
Definition transient_world : World := sample_world None None.

(** A persisted instance, attached to a session that finds [rows]. *)
Definition persisted_world (rows : list value) : World :=
  sample_world (Some 7%positive) (Some (sample_session rows)).

(** An instance that was persisted and is now detached. *)
Definition detached_world : World := sample_world (Some 7%positive) None.

(** A session whose autoflush is off, and a persisted instance attached to
    it. *)
Definition quiet_session (rows : list value) : Session :=
  {| sess_autoflush := false; sess_contains := true;
     sess_flush := λ st, st; sess_execute := λ _, rows |}.

Definition quiet_world (rows : list value) : World :=
  sample_world (Some 7%positive) (Some (quiet_session rows)).

(** ** Sequences of append and remove events *)

Inductive mutation : Type :=
  | Append (v : value) (initiator : option Initiator)
  | Remove (v : value) (initiator : option Initiator).

Definition fire (self : AttributeImpl.t) (m : mutation) : M unit :=
  match m with
  | Append v i => DynamicAttributeImpl.fire_append_event self v i None
  | Remove v i => DynamicAttributeImpl.fire_remove_event self v i None
  end.

Definition fire_all (self : AttributeImpl.t) (ms : list mutation) : M unit :=
  for_each ms (fire self).

(** What a mutation does to the [CollectionHistory] it reaches. *)
Definition record_mutation (c : CollectionHistory.t) (m : mutation) : CollectionHistory.t :=
  match m with
  | Append v _ => CollectionHistory.add_added v c
  | Remove v _ => CollectionHistory.add_removed v c
  end.

(** No item is appended once it has been removed. *)
Fixpoint no_append_after_remove (removed : list value) (ms : list mutation) : Prop :=
  match ms with
  | [] => True
  | Append v _ :: ms => (v ∉ removed) ∧ no_append_after_remove removed ms
  | Remove v _ :: ms => no_append_after_remove (v :: removed) ms
  end.

(** The [CollectionHistory] stored for an attribute, or the empty one that a
    reader builds when there is none. *)
Definition pending (self : AttributeImpl.t) (st : InstanceState.t) : CollectionHistory.t :=
  match InstanceState.committed_state st !! AttributeImpl.key self with
  | Some c => c
  | None => CollectionHistory.init
  end.

Definition appended (evs : list Fired) : list value :=
  omap (λ e, match e with FiredAppend v => Some v | FiredRemove _ => None end) evs.

Definition removed (evs : list Fired) : list value :=
  omap (λ e, match e with FiredRemove v => Some v | FiredAppend _ => None end) evs.

(** How often [x] occurs in [l]. *)
Definition occurrences (x : value) (l : list value) : nat :=
  length (filter (λ y, y = x) l).

Definition fired_by (m : mutation) : Fired :=
  match m with
  | Append v _ => FiredAppend v
  | Remove v _ => FiredRemove v
  end.

(** What appending to and removing from the collection leaves alone: the
    identity of the instance, its session, and the query objects. *)
Definition preserved (w w' : World) : Prop :=
  InstanceState.key (state w') = InstanceState.key (state w) ∧
  object_session w' = object_session w ∧
  queries w' = queries w.

(** ** Calls of the builder methods *)

Inductive builder_call : Type :=
  | call_where (criteria : list sql_expr)
  | call_filter (criteria : list sql_expr)
  | call_filter_by (kwargs : list (string * sql_expr))
  | call_order_by (criteria : list sql_expr)
  | call_join (target : sql_expr) (props : list sql_expr) (kwargs : list (string * sql_expr))
  | call_outerjoin (target : sql_expr) (props : list sql_expr)
                   (kwargs : list (string * sql_expr))
  | call_limit (limit : option Z)
  | call_offset (offset : option Z)
  | call_slice (start stop : option Z)
  | call_autoflush (setting : bool).

Definition call_builder `{SqlUtil} (c : builder_call) : positive → M positive :=
  match c with
  | call_where criteria => AppenderQueryBuilder.where_ criteria
  | call_filter criteria => AppenderQueryBuilder.filter criteria
  | call_filter_by kwargs => AppenderQueryBuilder.filter_by kwargs
  | call_order_by criteria => AppenderQueryBuilder.order_by criteria
  | call_join target props kwargs => AppenderQueryBuilder.join target props kwargs
  | call_outerjoin target props kwargs => AppenderQueryBuilder.outerjoin target props kwargs
  | call_limit limit => AppenderQueryBuilder.limit limit
  | call_offset offset => AppenderQueryBuilder.offset offset
  | call_slice start stop => AppenderQueryBuilder.slice start stop
  | call_autoflush setting => AppenderQueryBuilder.autoflush setting
  end.

(** The requested mutation, as the spec words it: what the copy holds once
    the call has been applied to it. *)
Definition requested `{SqlUtil} (c : builder_call) (q : AppenderQueryObject)
  : AppenderQueryObject :=
  let s := _statement q in
  match c with
  | call_where criteria | call_filter criteria =>
      mkAppenderQuery (Query.where_ s criteria) (_autoflush q) (instance q) (attr q) (mapper q)
  | call_filter_by kwargs => mkAppenderQuery (Query.filter_by s kwargs) (_autoflush q) (instance q) (attr q) (mapper q)
  | call_order_by criteria => mkAppenderQuery (Query.order_by s criteria) (_autoflush q) (instance q) (attr q) (mapper q)
  | call_join target props kwargs =>
      mkAppenderQuery (Query.join s target props kwargs) (_autoflush q) (instance q) (attr q) (mapper q)
  | call_outerjoin target props kwargs =>
      mkAppenderQuery (Query.outerjoin s target props kwargs) (_autoflush q) (instance q) (attr q) (mapper q)
  | call_limit limit => mkAppenderQuery (Query.limit s limit) (_autoflush q) (instance q) (attr q) (mapper q)
  | call_offset offset => mkAppenderQuery (Query.offset s offset) (_autoflush q) (instance q) (attr q) (mapper q)
  | call_slice start stop =>
      let bounds := _make_slice (Query._limit_clause s) (Query._offset_clause s) start stop in
      mkAppenderQuery (Query.offset (Query.limit s (fst bounds)) (snd bounds))
                      (_autoflush q) (instance q) (attr q) (mapper q)
  | call_autoflush setting => mkAppenderQuery s setting (instance q) (attr q) (mapper q)
  end.

(** ** Persisted instances *)

(** The instance has an identity and nothing is pending for the attribute. *)
Definition persisted_and_settled (self : AttributeImpl.t) (st : InstanceState.t) : Prop :=
  InstanceState.has_identity st = true ∧ pending self st = CollectionHistory.init.

(** The state [AppenderQuery.session] leaves behind: flushed when the query,
    the session and the membership of the instance in it all say so. *)
Definition after_autoflush (q : AppenderQueryObject) (s : Session) (w : World) : World :=
  if _autoflush q && sess_autoflush s && sess_contains s
  then with_state (sess_flush s) w
  else w.

(** ** Instances and sessions *)

(** The state still belongs to the same instance, with the same mapper. *)
Definition same_instance (w w' : World) : Prop :=
  InstanceState.obj (state w') = InstanceState.obj (state w) ∧
  InstanceState.mapper (state w') = InstanceState.mapper (state w).

(** ** Shapes of the pending changes *)

(** What [CollectionHistory(attr, state)], [add_added] and [add_removed] give
    the object stored in the pending-change map: no repetition among the
    additions nor among the deletions, no unchanged item, no reconciliation. *)
Definition stored_shape (c : CollectionHistory.t) : Prop :=
  NoDup (CollectionHistory.added_items c) ∧
  NoDup (CollectionHistory.deleted_items c) ∧
  CollectionHistory.unchanged_items c = [] ∧
  CollectionHistory._reconcile_collection c = false.

(** A chain of builder calls, [q.m1(...).m2(...)...]: every call has the
    result of the call before it as its receiver. *)
Fixpoint call_chain `{SqlUtil} (cs : list builder_call) (self : positive) : M positive :=
  match cs with
  | [] => mret self
  | c :: cs => q ← call_builder c self; call_chain cs q
  end.

(** ** dialects/oracle/oracledb.py: the version of the driver *)

Module oracledb.

(** A Python string is a sequence of code points.  What the interpreter
    supplies: [digit_value c] is the value of [c] when [c] is a decimal digit
    of Unicode, which is what [\d] matches in a [str] pattern and what [int]
    reads; [int_max_str_digits] is [sys.get_int_max_str_digits()], the
    length beyond which [int] refuses a string of digits, 0 for no limit. *)
Class Interpreter : Type := {
  digit_value : N → option N;
  int_max_str_digits : nat;
}.

(** The full stop is no digit. *)
Class InterpreterLaws (I : Interpreter) : Prop := {
  period_is_no_digit : digit_value 46 = None;
}.

Definition period : N := 46.

(** The longest run of digits a string starts with, and what follows it. *)
Fixpoint span_digits `{Interpreter} (s : list N) : list N * list N :=
  match s with
  | [] => ([], [])
  | c :: s' =>
      match digit_value c with
      | Some _ => let '(run, rest) := span_digits s' in (c :: run, rest)
      | None => ([], s)
      end
  end.

(** [re.match(r"(\d+)\.(\d+)(?:\.(\d+))?", s)] and its groups 1, 2 and 3.
    Every [\d+] is greedy and a full stop is no digit, so that giving back
    digits never helps: group 1 is the longest run of digits at the start and
    must be followed by a full stop, group 2 is the longest run after it and
    must not be empty, and group 3 is there when a full stop and at least one
    digit follow. *)
Definition re_match_version `{Interpreter} (s : list N)
  : option (list N * list N * option (list N)) :=
  match span_digits s with
  | ((_ :: _) as g1, c :: after1) =>
      if (c =? period)%N then
        match span_digits after1 with
        | ((_ :: _) as g2, after2) =>
            match after2 with
            | c' :: after3 =>
                if (c' =? period)%N then
                  match span_digits after3 with
                  | ((_ :: _) as g3, _) => Some (g1, g2, Some g3)
                  | ([], _) => Some (g1, g2, None)
                  end
                else Some (g1, g2, None)
            | [] => Some (g1, g2, None)
            end
        | ([], _) => None
        end
      else None
  | _ => None
  end.

(** [int(x)] for [x] a group of the match: [None] is [ValueError], raised
    for a string longer than the interpreter allows (and for a code point that
    is no digit, which a group never holds). *)
Definition int_of_group `{Interpreter} (x : list N) : option N :=
  if negb (int_max_str_digits =? 0)%nat && (int_max_str_digits <? length x)%nat
  then None
  else foldl (λ acc c, a ← acc; d ← digit_value c; Some (10 * a + d)%N) (Some 0%N) x.

(** Comparison of tuples of integers: the first difference decides, and a
    tuple is less than every longer tuple it starts. *)
Fixpoint tuple_lt (a b : list N) : bool :=
  match a, b with
  | [], [] => false
  | [], _ :: _ => true
  | _ :: _, [] => false
  | x :: a', y :: b' => (x <? y)%N || ((x =? y)%N && tuple_lt a' b')
  end.

(** How [_load_version] ends: normally, with [InvalidRequestError] (the
    attribute [oracledb_ver] is assigned before the test), or with the
    [ValueError] of [int], before any assignment. *)
Inductive outcome : Type :=
  | Loaded (oracledb_ver : list N)
  | Unsupported (oracledb_ver : list N)
  | IntValueError.

(** [dbapi_module] is [None] or a module whose [version] is the string
    given. *)
Definition _load_version `{Interpreter} (dbapi_module : option (list N)) : outcome :=
  let version : option (list N) :=
    match dbapi_module with
    | None => Some [0; 0; 0]%N
    | Some version_string =>
        match re_match_version version_string with
        | Some (g1, g2, g3) =>
            a ← int_of_group g1;
            b ← int_of_group g2;
            match g3 with
            | Some g3 => c ← int_of_group g3; Some [a; b; c]
            | None => Some [a; b]
            end
        | None => Some [0; 0; 0]%N
        end
    end in
  match version with
  | None => IntValueError
  | Some oracledb_ver =>
      if tuple_lt oracledb_ver [1%N] && tuple_lt [0; 0; 0]%N oracledb_ver
      then Unsupported oracledb_ver
      else Loaded oracledb_ver
  end.

(** An interpreter that knows the digits of ASCII, with the default limit of
    4300 digits. *)
Definition ascii_interpreter : Interpreter :=
  {| digit_value := λ c, if ((48 <=? c) && (c <=? 57))%N then Some (c - 48)%N else None;
     int_max_str_digits := 4300 |}.

(** A string made of digits, and a string that does not start with one. *)
Definition all_digits `{Interpreter} (g : list N) : Prop :=
  Forall (λ c, is_Some (digit_value c)) g.

Definition no_digit_ahead `{Interpreter} (s : list N) : Prop :=
  match s with
  | [] => True
  | c :: _ => digit_value c = None
  end.

(** The groups of a match that are not [None], in their order: what
    [x for x in m.group(1, 2, 3) if x is not None] runs over. *)
Definition present_groups (m : list N * list N * option (list N)) : list (list N) :=
  let '(g1, g2, g3) := m in
  g1 :: g2 :: match g3 with Some g => [g] | None => [] end.

(** The number a group of digits denotes in base ten. *)
Definition group_value `{Interpreter} (g : list N) : N :=
  foldl (λ a c, 10 * a + default 0 (digit_value c))%N 0%N g.

(** A group with more digits than [int] accepts. *)
Definition too_long `{Interpreter} (g : list N) : bool :=
  negb (int_max_str_digits =? 0)%nat && (int_max_str_digits <? length g)%nat.

End oracledb.

(** * Properties *)

(** ** Identity sets *)

Section identity_sets.
Implicit Types (x y : value) (s : IdentitySet.t) (l : list value).

Lemma contains_true x s : IdentitySet.contains x s = true ↔ x ∈ s.
Proof. unfold IdentitySet.contains. by rewrite bool_decide_eq_true. Qed.

Lemma contains_false x s : IdentitySet.contains x s = false ↔ x ∉ s.
Proof. unfold IdentitySet.contains. by rewrite bool_decide_eq_false. Qed.

Lemma elem_of_add x y s : y ∈ IdentitySet.add x s ↔ y = x ∨ y ∈ s.
Proof.
  unfold IdentitySet.add.
  destruct (IdentitySet.contains x s) eqn:E.
  - apply contains_true in E. naive_solver.
  - rewrite elem_of_app, list_elem_of_singleton. naive_solver.
Qed.

Lemma NoDup_add x s : NoDup s → NoDup (IdentitySet.add x s).
Proof.
  intros Hs. unfold IdentitySet.add.
  destruct (IdentitySet.contains x s) eqn:E; [done|].
  apply contains_false in E. apply NoDup_app. split_and!; [done| |apply NoDup_singleton].
  intros z Hz ->%list_elem_of_singleton. done.
Qed.

Lemma elem_of_remove x y s : y ∈ IdentitySet.remove x s ↔ y ≠ x ∧ y ∈ s.
Proof. unfold IdentitySet.remove. by rewrite list_elem_of_filter. Qed.

Lemma elem_of_update s l y : y ∈ IdentitySet.update s l ↔ y ∈ s ∨ y ∈ l.
Proof.
  unfold IdentitySet.update. revert s.
  induction l as [|x l IH]; intros s; simpl.
  - rewrite elem_of_nil. naive_solver.
  - rewrite IH, elem_of_add, elem_of_cons. naive_solver.
Qed.

Lemma NoDup_update s l : NoDup s → NoDup (IdentitySet.update s l).
Proof.
  unfold IdentitySet.update. revert s.
  induction l as [|x l IH]; intros s Hs; simpl; [done|].
  by apply IH, NoDup_add.
Qed.

Lemma elem_of_of_iterable l y : y ∈ IdentitySet.of_iterable l ↔ y ∈ l.
Proof.
  unfold IdentitySet.of_iterable. rewrite elem_of_update.
  unfold IdentitySet.empty. rewrite elem_of_nil. naive_solver.
Qed.

Lemma NoDup_of_iterable l : NoDup (IdentitySet.of_iterable l).
Proof. apply NoDup_update, NoDup_nil_2. Qed.

Lemma elem_of_union s l y : y ∈ IdentitySet.union s l ↔ y ∈ s ∨ y ∈ l.
Proof. apply elem_of_update. Qed.

Lemma elem_of_difference s l y : y ∈ IdentitySet.difference s l ↔ y ∈ s ∧ y ∉ l.
Proof. unfold IdentitySet.difference. rewrite list_elem_of_filter. naive_solver. Qed.

Lemma elem_of_intersection s l y : y ∈ IdentitySet.intersection s l ↔ y ∈ s ∧ y ∈ l.
Proof. unfold IdentitySet.intersection. rewrite list_elem_of_filter. naive_solver. Qed.

Lemma NoDup_difference s l : NoDup s → NoDup (IdentitySet.difference s l).
Proof. apply NoDup_filter. Qed.

Lemma NoDup_intersection s l : NoDup s → NoDup (IdentitySet.intersection s l).
Proof. apply NoDup_filter. Qed.

End identity_sets.

(** ** CollectionHistory.as_history *)

(** C1.  For a [CollectionHistory] that reconciles, [as_history] returns
    added = added_items − unchanged_items, deleted = deleted_items ∩
    unchanged_items and unchanged = unchanged_items − deleted: each list holds
    exactly the members the set operation keeps, by identity, in the order of
    the set it is taken from. *)
Theorem as_history_reconciling (c : CollectionHistory.t) :
  CollectionHistory._reconcile_collection c = true →
  let h := CollectionHistory.as_history c in
  (∀ x, x ∈ added h ↔
        x ∈ CollectionHistory.added_items c ∧ x ∉ CollectionHistory.unchanged_items c) ∧
  (∀ x, x ∈ deleted h ↔
        x ∈ CollectionHistory.deleted_items c ∧ x ∈ CollectionHistory.unchanged_items c) ∧
  (∀ x, x ∈ unchanged h ↔
        x ∈ CollectionHistory.unchanged_items c ∧ x ∉ deleted h) ∧
  added h = filter (λ x, x ∉ CollectionHistory.unchanged_items c)
                   (CollectionHistory.added_items c) ∧
  deleted h = filter (λ x, x ∈ CollectionHistory.unchanged_items c)
                     (CollectionHistory.deleted_items c) ∧
  unchanged h = filter (λ x, x ∉ deleted h) (CollectionHistory.unchanged_items c).
Proof.
  intros Hrec. unfold CollectionHistory.as_history. rewrite Hrec. simpl.
  unfold IdentitySet.to_list.
  split_and!; try done; intros x.
  - apply elem_of_difference.
  - apply elem_of_intersection.
  - apply elem_of_difference.
Qed.

Lemma as_history_reconciling_witness :
  let c := CollectionHistory.init_apply_to
             (CollectionHistory.add_removed (Obj 3)
                (CollectionHistory.add_added (Obj 1)
                   (CollectionHistory.add_added (Obj 2) CollectionHistory.init)))
             [Obj 2; Obj 3; Obj 4] in
  CollectionHistory.as_history c
    = {| added := [Obj 1]; unchanged := [Obj 2; Obj 4]; deleted := [Obj 3] |} ∧
  ∀ x, x ∈ added (CollectionHistory.as_history c) ↔
       x ∈ CollectionHistory.added_items c ∧ x ∉ CollectionHistory.unchanged_items c.
Proof.
  intros c. split; [reflexivity|].
  exact (proj1 (as_history_reconciling c eq_refl)).
Defined.

(** ** Appending and removing *)

Section events.
Implicit Types (self : AttributeImpl.t) (w : World) (v : value).

Lemma preserved_refl w : preserved w w.
Proof. by unfold preserved. Qed.

Lemma preserved_trans w1 w2 w3 : preserved w1 w2 → preserved w2 w3 → preserved w1 w3.
Proof. unfold preserved. intros (-> & -> & ->) (-> & -> & ->). done. Qed.

(** [_modified_event] returns the key of the entry, which exists afterwards
    and holds what was pending before. *)
Lemma _modified_event_spec self w :
  ∃ w', DynamicAttributeImpl._modified_event self w = Ok (AttributeImpl.key self, w') ∧
        InstanceState.committed_state (state w')
          = <[AttributeImpl.key self := pending self (state w)]>
              (InstanceState.committed_state (state w)) ∧
        preserved w w' ∧ events w' = events w ∧ hasparent w' = hasparent w.
Proof.
  eexists. split; [reflexivity|]. simpl. unfold pending, preserved.
  destruct (InstanceState.committed_state (state w) !! AttributeImpl.key self) eqn:E;
    simpl; rewrite ?E; simpl.
  - by rewrite insert_id.
  - done.
Qed.

Lemma fire_spec self (m : mutation) w :
  ∃ w', fire self m w = Ok (tt, w') ∧
        InstanceState.committed_state (state w')
          = <[AttributeImpl.key self := record_mutation (pending self (state w)) m]>
              (InstanceState.committed_state (state w)) ∧
        preserved w w' ∧ events w' = events w ++ [fired_by m].
Proof.
  destruct (_modified_event_spec self w) as (w1 & Hrun & Hcs & Hpres & Hev & _).
  destruct m as [v i|v i]; simpl;
    unfold DynamicAttributeImpl.fire_append_event, DynamicAttributeImpl.fire_remove_event;
    unfold mbind, M_bind at 1; rewrite Hrun; simpl;
    unfold mbind, M_bind, DynamicAttributeImpl.update_history, modify; simpl.
  - match goal with |- context [if ?b then _ else _] => destruct b end; simpl;
      (eexists; split; [reflexivity|]; simpl;
       rewrite Hcs, alter_insert_eq, Hev; done).
  - match goal with |- context [if ?b then _ else _] => destruct b end; simpl;
      (eexists; split; [reflexivity|]; simpl;
       rewrite Hcs, alter_insert_eq, Hev; done).
Qed.

Lemma pending_after self w w' c :
  InstanceState.committed_state (state w')
    = <[AttributeImpl.key self := c]> (InstanceState.committed_state (state w)) →
  pending self (state w') = c.
Proof. intros H. unfold pending. by rewrite H, lookup_insert_eq. Qed.

(** A sequence of events always runs to its end, and leaves pending what the
    mutations record one after the other. *)
Lemma fire_all_spec self (ms : list mutation) w :
  ∃ w', fire_all self ms w = Ok (tt, w') ∧
        pending self (state w') = foldl record_mutation (pending self (state w)) ms ∧
        preserved w w' ∧ events w' = events w ++ map fired_by ms.
Proof.
  revert w. induction ms as [|m ms IH]; intros w.
  - exists w. simpl. rewrite app_nil_r. split_and!; try done.
  - destruct (fire_spec self m w) as (w1 & Hrun & Hcs & Hpres & Hev).
    destruct (IH w1) as (w2 & Hrun2 & Hpend & Hpres2 & Hev2).
    exists w2. unfold fire_all in *. simpl. unfold mbind, M_bind at 1.
    rewrite Hrun. split_and!.
    + exact Hrun2.
    + rewrite Hpend. by rewrite (pending_after self w w1 _ Hcs).
    + by eapply preserved_trans.
    + rewrite Hev2, Hev, <-app_assoc. done.
Qed.

End events.

(** ** The reconciled view of the pending changes *)

Section reconciled_view.
Implicit Types (c : CollectionHistory.t) (x : value).

Lemma reconciling_disjoint c coll x :
  let h := CollectionHistory.as_history (CollectionHistory.init_apply_to c coll) in
  ¬ (x ∈ added h ∧ x ∈ deleted h).
Proof.
  simpl. unfold IdentitySet.to_list.
  rewrite elem_of_difference, elem_of_intersection. naive_solver.
Qed.

(** As long as no item is appended after it has been removed, an item that
    awaits deletion has been removed, and none awaits both. *)
Lemma record_mutations_disjoint (ms : list mutation) c (gone : list value) :
  no_append_after_remove gone ms →
  (∀ x, x ∈ CollectionHistory.deleted_items c → x ∈ gone) →
  (∀ x, ¬ (x ∈ CollectionHistory.added_items c ∧ x ∈ CollectionHistory.deleted_items c)) →
  ∀ x, let c' := foldl record_mutation c ms in
       ¬ (x ∈ CollectionHistory.added_items c' ∧ x ∈ CollectionHistory.deleted_items c').
Proof.
  revert c gone. induction ms as [|[v i|v i] ms IH]; intros c gone Hms Hgone Hdisj; simpl.
  - exact Hdisj.
  - destruct Hms as [Hv Hms]. apply (IH _ gone Hms); simpl.
    + exact Hgone.
    + intros x [[->|Hx]%elem_of_add Hd].
      * apply Hv, Hgone, Hd.
      * by apply (Hdisj x).
  - simpl in Hms. apply (IH _ (v :: gone) Hms); unfold CollectionHistory.add_removed;
      destruct (IdentitySet.contains v (CollectionHistory.added_items c)) eqn:E; simpl.
    + intros x Hx. apply elem_of_cons. right. by apply Hgone.
    + intros x [->|Hx]%elem_of_add; apply elem_of_cons; [by left|right; by apply Hgone].
    + intros x [[_ Hx]%elem_of_remove Hd]. by apply (Hdisj x).
    + apply contains_false in E.
      intros x [Ha [->|Hd]%elem_of_add]; [done|by apply (Hdisj x)].
Qed.

Lemma record_mutations_flag (ms : list mutation) c :
  CollectionHistory._reconcile_collection (foldl record_mutation c ms)
  = CollectionHistory._reconcile_collection c.
Proof.
  revert c. induction ms as [|[v i|v i] ms IH]; intros c; simpl; [done| |];
    rewrite IH; [done|].
  unfold CollectionHistory.add_removed. by destruct (IdentitySet.contains _ _).
Qed.

End reconciled_view.

(** C2, as the code has it.  Whatever sequence of [fire_append_event] and
    [fire_remove_event] calls has produced the pending changes of a
    never-mutated attribute, the sequence runs to its end, and the view
    [as_history] gives of a [CollectionHistory] that reconciles them against
    the rows of the collection places no item in both [added] and [deleted].
    The stored [CollectionHistory] does not reconcile: its [as_history] hands
    out [added_items] and [deleted_items] as they are, and these share no item
    provided no item is appended after it has been removed. *)
Theorem reconciled_history_disjoint (self : AttributeImpl.t) (ms : list mutation)
    (w : World) :
  InstanceState.committed_state (state w) !! AttributeImpl.key self = None →
  ∃ w', fire_all self ms w = Ok (tt, w') ∧
    let c := pending self (state w') in
    (∀ (coll : list value) (x : value),
       let h := CollectionHistory.as_history (CollectionHistory.init_apply_to c coll) in
       ¬ (x ∈ added h ∧ x ∈ deleted h)) ∧
    (no_append_after_remove [] ms →
     ∀ x : value, let h := CollectionHistory.as_history c in
                  ¬ (x ∈ added h ∧ x ∈ deleted h)).
Proof.
  intros Hnew.
  destruct (fire_all_spec self ms w) as (w' & Hrun & Hpend & _ & _).
  exists w'. split; [exact Hrun|]. split.
  - intros coll x. apply reconciling_disjoint.
  - intros Hms x. rewrite Hpend. unfold pending at 1. rewrite Hnew.
    assert (CollectionHistory._reconcile_collection
              (foldl record_mutation CollectionHistory.init ms) = false) as Hflag
      by (by rewrite record_mutations_flag).
    unfold CollectionHistory.as_history. rewrite Hflag. simpl.
    apply (record_mutations_disjoint ms CollectionHistory.init [] Hms).
    + intros y Hy. simpl in Hy. by apply elem_of_nil in Hy.
    + intros y [Hy _]. simpl in Hy. by apply elem_of_nil in Hy.
Qed.

Lemma reconciled_history_disjoint_witness :
  ∃ w', fire_all sample_attr
          [Append (Obj 1) None; Remove (Obj 2) None; Remove (Obj 1) None]
          transient_world = Ok (tt, w') ∧
        ∀ x : value,
          ¬ (x ∈ added (CollectionHistory.as_history (pending sample_attr (state w'))) ∧
             x ∈ deleted (CollectionHistory.as_history (pending sample_attr (state w')))).
Proof.
  destruct (reconciled_history_disjoint sample_attr
              [Append (Obj 1) None; Remove (Obj 2) None; Remove (Obj 1) None]
              transient_world eq_refl) as (w' & Hrun & _ & Hraw).
  exists w'. split; [exact Hrun|].
  apply Hraw. simpl. split; [apply not_elem_of_nil|exact I].
Defined.

(** C2, as stated, fails for a [CollectionHistory] that does not reconcile:
    an item removed and then appended is in both lists. *)
Lemma remove_then_append_in_both :
  ∃ w', fire_all sample_attr [Remove (Obj 1) None; Append (Obj 1) None]
          transient_world = Ok (tt, w') ∧
        let h := CollectionHistory.as_history (pending sample_attr (state w')) in
        Obj 1 ∈ added h ∧ Obj 1 ∈ deleted h.
Proof.
  eexists. split; [reflexivity|]. vm_compute. split; apply list_elem_of_here.
Qed.

(** ** Append, remove and pop *)

(** C7.  On a transient instance, [append(x)] followed by [remove(x)] runs to
    its end and leaves [added_items] without [x], and [deleted_items] as it
    was: [x] is not placed there.  The initiators are any that the guard
    [initiator is not self] lets through, [None] among them. *)
Theorem append_then_remove_transient (self : AttributeImpl.t) (x : value)
    (i1 i2 : option Initiator) (w : World) :
  InstanceState.has_identity (state w) = false →
  AttributeImpl.is_not_self i1 self = true →
  AttributeImpl.is_not_self i2 self = true →
  ∃ w', (DynamicAttributeImpl.append self x i1 ;;
         DynamicAttributeImpl.remove self x i2) w = Ok (tt, w') ∧
        (x ∉ CollectionHistory.added_items (pending self (state w'))) ∧
        CollectionHistory.deleted_items (pending self (state w'))
          = CollectionHistory.deleted_items (pending self (state w)) ∧
        InstanceState.has_identity (state w') = false.
Proof.
  intros Htransient H1 H2.
  destruct (fire_all_spec self [Append x i1; Remove x i2] w)
    as (w' & Hrun & Hpend & (Hkey & _) & _).
  assert (IdentitySet.contains x
            (IdentitySet.add x (CollectionHistory.added_items (pending self (state w))))
          = true) as Hin.
  { apply contains_true, elem_of_add. by left. }
  exists w'. split_and!.
  - unfold fire_all in Hrun. simpl in Hrun. rewrite <-Hrun.
    unfold mbind, M_bind, DynamicAttributeImpl.append, DynamicAttributeImpl.remove.
    rewrite H1, H2.
    destruct (DynamicAttributeImpl.fire_append_event self x i1 None w)
      as [[[] w1]|e]; [|done].
    by destruct (DynamicAttributeImpl.fire_remove_event self x i2 None w1)
      as [[[] w2]|e].
  - rewrite Hpend. simpl. unfold CollectionHistory.add_removed. simpl.
    rewrite Hin. cbn [CollectionHistory.added_items].
    by intros [? _]%elem_of_remove.
  - rewrite Hpend. simpl. unfold CollectionHistory.add_removed. simpl.
    by rewrite Hin.
  - unfold InstanceState.has_identity in *. by rewrite Hkey.
Qed.

Lemma append_then_remove_transient_witness :
  ∃ w', (DynamicAttributeImpl.append sample_attr (Obj 5) None ;;
         DynamicAttributeImpl.remove sample_attr (Obj 5) None) transient_world
        = Ok (tt, w') ∧
        (Obj 5 ∉ CollectionHistory.added_items (pending sample_attr (state w'))) ∧
        CollectionHistory.deleted_items (pending sample_attr (state w')) = [].
Proof.
  destruct (append_then_remove_transient sample_attr (Obj 5) None None transient_world
              eq_refl eq_refl eq_refl) as (w' & Hrun & Hadded & Hdeleted & _).
  exists w'. split_and!; [exact Hrun|exact Hadded|exact Hdeleted].
Defined.

(** C10, as the code has it.  The short-circuit on [None] is that of [set]
    called with [pop=True]: whatever the instance-state and the initiator, it
    returns at once, fires no event and leaves every [CollectionHistory] as it
    is.  [pop] itself is [remove], for every value. *)
Theorem set_pop_None_is_noop `{Flags : AttributeFlags} (self : AttributeImpl.t)
    (initiator : option Initiator) (w : World) :
  DynamicAttributeImpl.set self None initiator true w = Ok (tt, w) ∧
  ∀ value : value,
    DynamicAttributeImpl.pop self value initiator w
    = DynamicAttributeImpl.remove self value initiator w.
Proof.
  split; [|done]. unfold DynamicAttributeImpl.set.
  by destruct initiator as [i|]; [destruct (_ =? _)%positive|].
Qed.

(** C10, as stated, fails: [pop] with value [None] fires a remove event and
    places [None] in [deleted_items]. *)
Lemma pop_None_fires_remove :
  ∃ w', DynamicAttributeImpl.pop sample_attr PyNone None transient_world = Ok (tt, w') ∧
        events w' = [FiredRemove PyNone] ∧
        CollectionHistory.deleted_items (pending sample_attr (state w')) = [PyNone] ∧
        CollectionHistory.deleted_items (pending sample_attr (state transient_world)) = [].
Proof. eexists. split; [reflexivity|]. by vm_compute. Qed.

(** ** Reading without SQL *)

Lemma sample_flags_laws : AttributeFlagsLaws sample_flags.
Proof. by split. Qed.

Section reads.
Context `{Flags : AttributeFlags}.
Implicit Types (self : AttributeImpl.t) (w : World).

(** Without an identity, or without [INIT_OK], the pending changes are
    returned as they are and nothing is touched, at any depth of calls. *)
Lemma _get_collection_history_plain (fuel : nat) self (passive : Z) w :
  InstanceState.has_identity (state w) && has_flag passive INIT_OK = false →
  _get_collection_history fuel self passive w = Ok (pending self (state w), w).
Proof.
  intros H. destruct fuel; simpl; unfold mbind, M_bind, gets; simpl; by rewrite H.
Qed.

Lemma PASSIVE_NO_INITIALIZE_plain `{!AttributeFlagsLaws Flags} (b : bool) :
  b && has_flag PASSIVE_NO_INITIALIZE INIT_OK = false.
Proof.
  unfold has_flag. rewrite PASSIVE_NO_INITIALIZE_no_INIT. simpl.
  by destruct b.
Qed.

Lemma get_without_SQL `{!AttributeFlagsLaws Flags} self (passive : Z) w :
  has_flag passive SQL_OK = false →
  DynamicAttributeImpl.get self passive w
  = Ok (DynamicAttributeImpl.Items
          (CollectionHistory.added_items (pending self (state w))), w).
Proof.
  intros H. unfold DynamicAttributeImpl.get. rewrite H. cbn [negb].
  unfold mbind, M_bind, DynamicAttributeImpl._get_collection_history.
  by rewrite _get_collection_history_plain by apply PASSIVE_NO_INITIALIZE_plain.
Qed.

Lemma get_with_SQL self (passive : Z) w :
  has_flag passive SQL_OK = true →
  DynamicAttributeImpl.get self passive w
  = Ok (DynamicAttributeImpl.QueryObject (fresh (dom (queries w))),
        with_queries (insert (fresh (dom (queries w))) (AppenderQueryBuilder.initial self (state w))) w).
Proof. intros H. unfold DynamicAttributeImpl.get. by rewrite H. Qed.

End reads.

(** C5, as the code has it.  A [CollectionHistory] is created and stored in
    the pending-change map at the first mutation of the attribute, holding
    what the mutation records on an empty [CollectionHistory]; a read that
    forbids SQL builds its empty [CollectionHistory] for the answer only and
    leaves the instance, and so the pending-change map, as it is. *)
Theorem stored_at_first_mutation_only `{Flags : AttributeFlags}
    `{!AttributeFlagsLaws Flags} (self : AttributeImpl.t) (w : World) :
  InstanceState.committed_state (state w) !! AttributeImpl.key self = None →
  (∀ m : mutation, ∃ w',
     fire self m w = Ok (tt, w') ∧
     InstanceState.committed_state (state w') !! AttributeImpl.key self
       = Some (record_mutation CollectionHistory.init m)) ∧
  (∀ passive : Z, has_flag passive SQL_OK = false →
     DynamicAttributeImpl.get self passive w = Ok (DynamicAttributeImpl.Items [], w)).
Proof.
  intros Hnone. split.
  - intros m. destruct (fire_spec self m w) as (w' & Hrun & Hcs & _).
    exists w'. split; [done|]. rewrite Hcs, lookup_insert_eq.
    unfold pending. by rewrite Hnone.
  - intros passive Hp. rewrite get_without_SQL by done.
    unfold pending. by rewrite Hnone.
Qed.

Lemma stored_at_first_mutation_only_witness :
  (∃ w', fire sample_attr (Append (Obj 1) None) (persisted_world [Obj 2]) = Ok (tt, w') ∧
         InstanceState.committed_state (state w') !! "addresses"
           = Some (CollectionHistory.mk [Obj 1] [] [] false)) ∧
  DynamicAttributeImpl.get (Flags := sample_flags) sample_attr 29 (persisted_world [Obj 2])
    = Ok (DynamicAttributeImpl.Items [], persisted_world [Obj 2]).
Proof.
  destruct (stored_at_first_mutation_only (Flags := sample_flags)
              (AttributeFlagsLaws0 := sample_flags_laws)
              sample_attr (persisted_world [Obj 2]) eq_refl) as [Hfire Hget].
  split; [exact (Hfire (Append (Obj 1) None))|exact (Hget 29 eq_refl)].
Defined.

(** C5, as stated, fails: after a read that forbids SQL (here with every
    flag of [PASSIVE_OFF] but [SQL_OK]), the pending-change map of a
    never-mutated attribute holds nothing for the attribute. *)
Lemma passive_read_stores_nothing :
  ∃ w', DynamicAttributeImpl.get (Flags := sample_flags) sample_attr 29
          (persisted_world [Obj 2])
        = Ok (DynamicAttributeImpl.Items [], w') ∧
        InstanceState.committed_state (state w') !! "addresses" = None.
Proof. eexists. split; [reflexivity|]. by vm_compute. Qed.

(** C6.  For every instance-state and passive flag, [get] returns the
    [added_items] of the pending changes, and touches nothing, when the flag
    forbids SQL; otherwise it returns a query object that did not exist
    before, built by [AppenderQuery(self, state)].  That object is bound to
    this attribute and to the instance of the state: its [attr] is the
    attribute, its [instance] is [state.obj()], its [mapper] is the mapper of
    that instance, its autoflush is on, and its statement selects the target
    mapper (from the target and the secondary table when there is one) where
    the parent criterion of that very instance holds, in the order of the
    attribute when it has one. *)
Theorem get_by_passive_flag `{Flags : AttributeFlags} `{!AttributeFlagsLaws Flags}
    (self : AttributeImpl.t) (passive : Z) (w : World) :
  (has_flag passive SQL_OK = false →
   DynamicAttributeImpl.get self passive w
   = Ok (DynamicAttributeImpl.Items
           (CollectionHistory.added_items (pending self (state w))), w)) ∧
  (has_flag passive SQL_OK = true →
   ∃ (q : positive) (w' : World),
     DynamicAttributeImpl.get self passive w = Ok (DynamicAttributeImpl.QueryObject q, w') ∧
     queries w !! q = None ∧
     queries w' = <[q := AppenderQueryBuilder.initial self (state w)]> (queries w) ∧
     attr (AppenderQueryBuilder.initial self (state w)) = self ∧
     _autoflush (AppenderQueryBuilder.initial self (state w)) = true ∧
     state w' = state w ∧ events w' = events w ∧
     instance (AppenderQueryBuilder.initial self (state w)) = InstanceState.obj (state w) ∧
     mapper (AppenderQueryBuilder.initial self (state w))
       = InstanceState.mapper (state w) ∧
     (let prop := AttributeImpl.prop self in
      let entity := Query.new [AttributeImpl.target_mapper self] in
      let selected :=
        match secondary prop with
        | Some sec => Query.select_from entity [mapper_selectable prop; sec]
        | None => entity
        end in
      let of_parent :=
        Query.where_ selected [_with_parent prop (InstanceState.obj (state w))] in
      _statement (AppenderQueryBuilder.initial self (state w))
      = match AttributeImpl.order_by self with
        | [] => of_parent
        | _ :: _ => Query.order_by of_parent (AttributeImpl.order_by self)
        end) ∧
     dict_ w' = dict_ w ∧ object_session w' = object_session w).
Proof.
  split; intros Hp.
  - by apply get_without_SQL.
  - eexists _, _. split; [by apply get_with_SQL|]. split_and!; try done.
    apply not_elem_of_dom, is_fresh.
Qed.

Lemma get_by_passive_flag_witness :
  DynamicAttributeImpl.get (Flags := sample_flags) sample_attr 29 transient_world
  = Ok (DynamicAttributeImpl.Items [], transient_world) ∧
  ∃ (q : positive) (w' : World),
    DynamicAttributeImpl.get (Flags := sample_flags) sample_attr 31 transient_world
    = Ok (DynamicAttributeImpl.QueryObject q, w') ∧
    queries w' !! q
    = Some {| _statement := Query.where_ (Query.new [10%positive]) [105%positive];
              _autoflush := true;
              instance := 5%positive;
              attr := sample_attr;
              mapper := 20%positive |}.
Proof.
  split.
  - exact (proj1 (get_by_passive_flag (Flags := sample_flags)
                    (AttributeFlagsLaws0 := sample_flags_laws)
                    sample_attr 29 transient_world) eq_refl).
  - destruct (proj2 (get_by_passive_flag (Flags := sample_flags)
                       (AttributeFlagsLaws0 := sample_flags_laws)
                       sample_attr 31 transient_world) eq_refl)
      as (q & w' & Hget & _ & Hq & _).
    exists q, w'. split; [exact Hget|]. rewrite Hq. apply lookup_insert_eq.
Defined.

(** ** Registration *)

(** C3, as the code has it.  [init_class_attribute] raises
    [InvalidRequestError], at mapping-configuration time, exactly when the
    relationship is not collection-valued ([uselist=False]); on a
    collection-valued relationship it registers the attribute, with no
    warning when the direction is one-to-many or many-to-many and with one
    warning otherwise. *)
Theorem init_class_attribute_outcome (self : DynaLoader.t) (mapper : sql_expr) :
  (snd (DynaLoader.init_class_attribute self mapper) = Raise InvalidRequestError
   ↔ DynaLoader.uselist self = false) ∧
  (DynaLoader.uselist self = true →
   ∃ (ws : list DynaLoader.warning) (reg : DynaLoader.registration),
     snd (DynaLoader.init_class_attribute self mapper) = Ok (ws, reg) ∧
     (direction (DynaLoader.parent_property self) ≠ MANYTOONE → ws = []) ∧
     (direction (DynaLoader.parent_property self) = MANYTOONE →
      ws = [DynaLoader.WarnCannotBeUsed (DynaLoader.parent_property self)])).
Proof.
  unfold DynaLoader.init_class_attribute. simpl.
  destruct (DynaLoader.uselist self); simpl; split; try done.
  intros _. eexists _, _. split; [reflexivity|].
  by destruct (direction (DynaLoader.parent_property self)).
Qed.

(** C3, as stated, fails: a many-to-one relationship with [uselist=True] is
    registered, with a warning. *)
Lemma many_to_one_uselist_registers :
  ∃ reg : DynaLoader.registration,
    snd (DynaLoader.init_class_attribute
           {| DynaLoader.is_class_level := false;
              DynaLoader.uselist := true;
              DynaLoader.parent_property :=
                {| direction := MANYTOONE; prop_mapper := 10%positive;
                   mapper_selectable := 11%positive; secondary := None;
                   prop_order_by := []; query_class := None;
                   _with_parent := λ _, 12%positive |} |} 1%positive)
    = Ok ([DynaLoader.WarnCannotBeUsed
             {| direction := MANYTOONE; prop_mapper := 10%positive;
                mapper_selectable := 11%positive; secondary := None;
                prop_order_by := []; query_class := None;
                _with_parent := λ _, 12%positive |}], reg).
Proof. eexists. reflexivity. Qed.

(** ** Reading through the query *)

Section query_reads.
Context `{Flags : AttributeFlags}.
Implicit Types (self : AttributeImpl.t) (w : World) (q : positive)
  (obj : AppenderQueryObject).

Lemma bind_Ok {A B : Type} (m : M A) (f : A → M B) w a w1 :
  m w = Ok (a, w1) → (m ≫= f) w = f a w1.
Proof. intros H. unfold mbind, M_bind. by rewrite H. Qed.

Lemma deref_Ok q obj w : queries w !! q = Some obj → Generative.deref q w = Ok (obj, w).
Proof. intros H. unfold Generative.deref. by rewrite H. Qed.

(** With an identity and no session, [session] is [None] and nothing is
    flushed. *)
Lemma session_detached obj w :
  object_session w = None → AppenderQueryBuilder.session obj w = Ok (None, w).
Proof.
  intros Hs. unfold AppenderQueryBuilder.session, mbind, M_bind, gets. simpl.
  rewrite Hs. simpl. by destruct (InstanceState.has_identity (state w)).
Qed.

Lemma session_attached obj w (s : Session) :
  object_session w = Some s →
  InstanceState.has_identity (state (after_autoflush obj s w)) = true →
  AppenderQueryBuilder.session obj w = Ok (Some s, after_autoflush obj s w).
Proof.
  intros Hs Hid. unfold AppenderQueryBuilder.session, mbind, M_bind, gets. simpl.
  rewrite Hs. unfold after_autoflush in *.
  destruct (_autoflush obj && sess_autoflush s && sess_contains s); simpl in *;
    by rewrite Hid.
Qed.

Lemma _iter_detached (fuel : nat) q obj w :
  queries w !! q = Some obj →
  InstanceState.has_identity (state w) = true →
  object_session w = None →
  _iter fuel q w = Raise DetachedInstanceError.
Proof.
  intros Hq Hid Hs.
  assert (detached w = true) as Hd by (unfold detached; by rewrite Hid, Hs).
  destruct fuel; simpl;
    rewrite (bind_Ok _ _ _ _ _ (deref_Ok _ _ _ Hq));
    rewrite (bind_Ok _ _ _ _ _ (session_detached obj w Hs));
    unfold mbind, M_bind, gets; by rewrite Hd.
Qed.

Lemma _iter_attached (fuel : nat) q obj w (s : Session) :
  queries w !! q = Some obj →
  object_session w = Some s →
  InstanceState.has_identity (state (after_autoflush obj s w)) = true →
  _iter fuel q w = Ok (sess_execute s (_statement obj), after_autoflush obj s w).
Proof.
  intros Hq Hs Hid.
  destruct fuel; simpl;
    rewrite (bind_Ok _ _ _ _ _ (deref_Ok _ _ _ Hq));
    rewrite (bind_Ok _ _ _ _ _ (session_attached obj w s Hs Hid)); done.
Qed.

End query_reads.

(** C8.  For an instance that has an identity and no reachable session,
    [all()] and iteration raise [DetachedInstanceError] on every query object
    bound to it, whatever is pending, and so with an empty pending-change
    map. *)
Theorem detached_read_raises `{Flags : AttributeFlags} (q : positive)
    (obj : AppenderQueryObject) (w : World) :
  queries w !! q = Some obj →
  InstanceState.has_identity (state w) = true →
  object_session w = None →
  AppenderQuery.all q w = Raise DetachedInstanceError ∧
  AppenderQuery.__iter__ q w = Raise DetachedInstanceError.
Proof.
  intros Hq Hid Hs.
  unfold AppenderQuery.all, AppenderQuery.__iter__, AppenderQuery._iter.
  split; by eapply _iter_detached.
Qed.

Lemma detached_read_raises_witness :
  ∃ (q : positive) (w : World),
    DynamicAttributeImpl.get (Flags := sample_flags) sample_attr 31 detached_world
      = Ok (DynamicAttributeImpl.QueryObject q, w) ∧
    AppenderQuery.all (Flags := sample_flags) q w = Raise DetachedInstanceError.
Proof.
  pose (q := fresh (dom (queries detached_world))).
  pose (w := with_queries (insert q (AppenderQueryBuilder.initial sample_attr (sample_state None)))
                          detached_world).
  exists q, w. split; [reflexivity|].
  exact (proj1 (detached_read_raises (Flags := sample_flags) q
                  (AppenderQueryBuilder.initial sample_attr (sample_state None)) w
                  (lookup_insert_eq _ _ _) eq_refl eq_refl)).
Defined.

(** ** The builder methods *)

Section builders.
Implicit Types (w : World) (self : positive) (obj : AppenderQueryObject).

(** A generative method whose body assigns attributes of the copy: the copy
    is a new object, and it is the only object the call writes. *)
Lemma _generative_assign (f : AppenderQueryObject → AppenderQueryObject) self obj w :
  queries w !! self = Some obj →
  Generative._generative (λ s, Generative.assign s f) self w
  = Ok (fresh (dom (queries w)),
        with_queries (insert (fresh (dom (queries w))) (f obj)) w).
Proof.
  intros Hq.
  unfold Generative._generative, Generative._generate, Generative.assign,
    Generative.alloc, Generative.deref, modify, mbind, M_bind.
  rewrite Hq. simpl. rewrite lookup_insert_eq. simpl.
  unfold with_queries. simpl. by rewrite insert_insert_eq.
Qed.

Lemma call_builder_run `{SqlUtil} (c : builder_call) self obj w :
  queries w !! self = Some obj →
  call_builder c self w
  = Ok (fresh (dom (queries w)),
        with_queries (insert (fresh (dom (queries w))) (requested c obj)) w).
Proof.
  intros Hq.
  destruct c; simpl;
    unfold AppenderQueryBuilder.filter, AppenderQueryBuilder.where_,
      AppenderQueryBuilder.filter_by, AppenderQueryBuilder.order_by,
      AppenderQueryBuilder.join, AppenderQueryBuilder.outerjoin,
      AppenderQueryBuilder.limit, AppenderQueryBuilder.offset,
      AppenderQueryBuilder.slice, AppenderQueryBuilder.autoflush;
    rewrite (_generative_assign _ self obj w Hq); try done.
  unfold requested, AppenderQueryBuilder.set__statement.
  by destruct (_make_slice _ _ _ _).
Qed.

End builders.

(** C9.  Every builder method ([where], [filter], [filter_by], [order_by],
    [join], [outerjoin], [limit], [offset], [slice], [autoflush]) returns a
    query object that did not exist before the call and holds the requested
    mutation; the receiver and every other query object are exactly as they
    were before the call (statement, autoflush setting and attribute), and
    so are the instance and the events fired. *)
Theorem builder_methods_are_generative `{SqlUtil} (c : builder_call)
    (self : positive) (obj : AppenderQueryObject) (w : World) :
  queries w !! self = Some obj →
  ∃ (q2 : positive) (w' : World),
    call_builder c self w = Ok (q2, w') ∧
    q2 ≠ self ∧
    queries w !! q2 = None ∧
    queries w' !! self = Some obj ∧
    queries w' !! q2 = Some (requested c obj) ∧
    (∀ other : positive, other ≠ q2 → queries w' !! other = queries w !! other) ∧
    state w' = state w ∧ dict_ w' = dict_ w ∧ events w' = events w.
Proof.
  intros Hq.
  assert (queries w !! fresh (dom (queries w)) = None) as Hfresh
    by apply not_elem_of_dom, is_fresh.
  assert (fresh (dom (queries w)) ≠ self) as Hne by congruence.
  eexists _, _. split; [by apply call_builder_run|]. simpl.
  split_and!; try done.
  - by rewrite lookup_insert_ne.
  - by rewrite lookup_insert_eq.
  - intros other Ho. by rewrite lookup_insert_ne.
Qed.

Lemma builder_methods_are_generative_witness :
  ∃ (q1 q2 : positive) (w1 w2 : World),
    DynamicAttributeImpl.get (Flags := sample_flags) sample_attr 31 transient_world
      = Ok (DynamicAttributeImpl.QueryObject q1, w1) ∧
    call_builder (H := sample_sql_util) (call_where [20%positive]) q1 w1 = Ok (q2, w2) ∧
    q2 ≠ q1 ∧
    queries w2 !! q1 = Some (AppenderQueryBuilder.initial sample_attr (sample_state None)) ∧
    _statement <$> queries w2 !! q2
      = Some (Query.where_ (Query.where_ (Query.new [10%positive]) [105%positive])
                           [20%positive]).
Proof.
  pose (q1 := fresh (dom (queries transient_world))).
  pose (w1 := with_queries (insert q1 (AppenderQueryBuilder.initial sample_attr (sample_state None)))
                           transient_world).
  destruct (builder_methods_are_generative (H := sample_sql_util)
              (call_where [20%positive]) q1 (AppenderQueryBuilder.initial sample_attr (sample_state None)) w1
              (lookup_insert_eq _ _ _))
    as (q2 & w2 & Hrun & Hne & _ & Hq1 & Hq2 & _).
  exists q1, q2, w1, w2. split_and!; [reflexivity|exact Hrun|exact Hne|exact Hq1|].
  rewrite Hq2. reflexivity.
Defined.

(** ** Bulk replacement *)

Section bulk_replace.
Context `{Flags : AttributeFlags}.
Implicit Types (self : AttributeImpl.t) (w : World) (x v : value) (l : list value).

Lemma fire_append_event_ref self v (initiator : option Initiator) (k : string) w :
  ∃ w', DynamicAttributeImpl.fire_append_event self v initiator (Some k) w = Ok (tt, w') ∧
        preserved w w' ∧ events w' = events w ++ [FiredAppend v].
Proof.
  unfold DynamicAttributeImpl.fire_append_event, DynamicAttributeImpl.update_history,
    modify, mbind, M_bind, mret, M_ret. simpl.
  match goal with |- context [if ?b then _ else _] => destruct b end;
    by eexists.
Qed.

Lemma fire_remove_event_ref self v (initiator : option Initiator) (k : string) w :
  ∃ w', DynamicAttributeImpl.fire_remove_event self v initiator (Some k) w = Ok (tt, w') ∧
        preserved w w' ∧ events w' = events w ++ [FiredRemove v].
Proof.
  unfold DynamicAttributeImpl.fire_remove_event, DynamicAttributeImpl.update_history,
    modify, mbind, M_bind, mret, M_ret. simpl.
  match goal with |- context [if ?b then _ else _] => destruct b end;
    by eexists.
Qed.

Lemma append_loop self (k : string) (additions : IdentitySet.t) l w :
  ∃ w', for_each l (λ member,
          if IdentitySet.contains member additions
          then DynamicAttributeImpl.fire_append_event self member None (Some k)
          else mret tt) w = Ok (tt, w') ∧
        preserved w w' ∧
        events w' = events w ++ map FiredAppend (filter (λ m, m ∈ additions) l).
Proof.
  revert w. induction l as [|x l IH]; intros w.
  - exists w. simpl. rewrite app_nil_r. by split_and!.
  - cbn [for_each]. destruct (IdentitySet.contains x additions) eqn:E.
    + apply contains_true in E.
      destruct (fire_append_event_ref self x None k w) as (w1 & Hrun & Hpres & Hev).
      destruct (IH w1) as (w2 & Hrun2 & Hpres2 & Hev2).
      exists w2. rewrite (bind_Ok _ _ _ _ _ Hrun). split_and!; [done| |].
      * by eapply preserved_trans.
      * rewrite Hev2, Hev, filter_cons_True by done. by rewrite <-app_assoc.
    + apply contains_false in E.
      destruct (IH w) as (w2 & Hrun2 & Hpres2 & Hev2).
      exists w2. rewrite (bind_Ok _ _ w tt w eq_refl). split_and!; [done..|].
      by rewrite Hev2, filter_cons_False.
Qed.

Lemma remove_loop self (k : string) l w :
  ∃ w', for_each l (λ member,
          DynamicAttributeImpl.fire_remove_event self member None (Some k)) w
        = Ok (tt, w') ∧
        preserved w w' ∧ events w' = events w ++ map FiredRemove l.
Proof.
  revert w. induction l as [|x l IH]; intros w.
  - exists w. simpl. rewrite app_nil_r. by split_and!.
  - cbn [for_each].
    destruct (fire_remove_event_ref self x None k w) as (w1 & Hrun & Hpres & Hev).
    destruct (IH w1) as (w2 & Hrun2 & Hpres2 & Hev2).
    exists w2. rewrite (bind_Ok _ _ _ _ _ Hrun). split_and!; [done| |].
    + by eapply preserved_trans.
    + rewrite Hev2, Hev. by rewrite <-app_assoc.
Qed.

Lemma filter_ext_elem_of (P Q : value → Prop) `{∀ x, Decision (P x)}
    `{∀ x, Decision (Q x)} l :
  (∀ x, x ∈ l → P x ↔ Q x) → filter P l = filter Q l.
Proof.
  induction l as [|x l IH]; intros HPQ; [done|].
  rewrite !filter_cons.
  assert (filter P l = filter Q l) as ->.
  { apply IH. intros y Hy. apply HPQ. by right. }
  assert (P x ↔ Q x) as Hx by (apply HPQ; by left).
  destruct (decide (P x)), (decide (Q x)); naive_solver.
Qed.

Lemma appended_app (evs1 evs2 : list Fired) :
  appended (evs1 ++ evs2) = appended evs1 ++ appended evs2.
Proof. unfold appended. induction evs1 as [|[] ? IH]; cbn; by rewrite ?IH. Qed.

Lemma removed_app (evs1 evs2 : list Fired) :
  removed (evs1 ++ evs2) = removed evs1 ++ removed evs2.
Proof. unfold removed. induction evs1 as [|[] ? IH]; cbn; by rewrite ?IH. Qed.

Lemma appended_map_append l : appended (map FiredAppend l) = l.
Proof. unfold appended. induction l; simpl; by f_equal. Qed.

Lemma appended_map_remove l : appended (map FiredRemove l) = [].
Proof. unfold appended. by induction l. Qed.

Lemma removed_map_append l : removed (map FiredAppend l) = [].
Proof. unfold removed. by induction l. Qed.

Lemma removed_map_remove l : removed (map FiredRemove l) = l.
Proof. unfold removed. induction l; simpl; by f_equal. Qed.

Lemma occurrences_filter (P : value → Prop) `{∀ x, Decision (P x)} x l :
  P x → occurrences x (filter P l) = occurrences x l.
Proof.
  intros HP. unfold occurrences. f_equal.
  induction l as [|y l IH]; [done|].
  rewrite (filter_cons P). destruct (decide (P y)) as [Hy|Hy].
  - rewrite !(filter_cons (λ y, y = x)). rewrite IH. done.
  - rewrite IH. rewrite (filter_cons (λ y, y = x)).
    destruct (decide (y = x)) as [->|]; done.
Qed.

Lemma occurrences_NoDup x l : NoDup l → x ∈ l → occurrences x l = 1%nat.
Proof.
  unfold occurrences. induction 1 as [|y l Hy Hl IH]; intros Hx.
  - by apply elem_of_nil in Hx.
  - rewrite filter_cons. destruct (decide (y = x)) as [->|Hne].
    + simpl. f_equal. apply length_zero_iff_nil.
      apply elem_of_nil_inv. intros z [-> Hz]%list_elem_of_filter. done.
    + apply IH. apply elem_of_cons in Hx as [->|]; done.
Qed.

End bulk_replace.

(** C4, as the code has it.  [set(new_iterable)] on a persisted instance,
    attached to a session, for which nothing is pending (and for which a
    flush leaves it so) runs to its end and fires the append events first and
    the remove events after them.  The old collection is the set of rows the
    query finds.  A member of both the old and the new collection receives no
    event; a member only in the new collection receives one append event for
    each of its occurrences in [new_iterable], in the order of
    [new_iterable], and so exactly one when [new_iterable] holds no member
    twice; a member only in the old collection receives exactly one remove
    event. *)
Theorem set_fires_the_difference `{Flags : AttributeFlags} `{!AttributeFlagsLaws Flags}
    (self : AttributeImpl.t) (new_iterable : list value) (s : Session) (w : World) :
  object_session w = Some s →
  persisted_and_settled self (state w) →
  persisted_and_settled self (sess_flush s (state w)) →
  let old := sess_execute s (_statement (AppenderQueryBuilder.initial self (state w))) in
  ∃ (w' : World) (evs : list Fired),
    DynamicAttributeImpl.set self (Some new_iterable) None false w = Ok (tt, w') ∧
    events w' = events w ++ evs ∧
    evs = map FiredAppend (appended evs) ++ map FiredRemove (removed evs) ∧
    appended evs = filter (λ x, x ∉ old) new_iterable ∧
    (∀ x, x ∈ old → x ∈ new_iterable → (x ∉ appended evs) ∧ (x ∉ removed evs)) ∧
    (∀ x, x ∈ new_iterable → x ∉ old →
          occurrences x (appended evs) = occurrences x new_iterable ∧
          (x ∉ removed evs)) ∧
    (∀ x, x ∈ old → x ∉ new_iterable →
          occurrences x (removed evs) = 1%nat ∧ (x ∉ appended evs)) ∧
    (NoDup new_iterable →
     ∀ x, x ∈ new_iterable → x ∉ old → occurrences x (appended evs) = 1%nat).
Proof.
  intros Hs Hw Hflushed old.
  pose (q0 := fresh (dom (queries w))).
  pose (w1 := with_queries (insert q0 (AppenderQueryBuilder.initial self (state w))) w).
  pose (w2 := after_autoflush (AppenderQueryBuilder.initial self (state w)) s w1).
  assert (persisted_and_settled self (state w2)) as [Hid2 Hpend2].
  { unfold w2, after_autoflush. by destruct (_ && _ && _). }
  assert (_iter recursion_limit q0 w1 = Ok (old, w2)) as Hiter.
  { apply _iter_attached; [apply lookup_insert_eq|done|done]. }
  destruct (_modified_event_spec self w2) as (w3 & Hmod & Hcs3 & (Hkey3 & _) & Hev3 & _).
  assert (InstanceState.has_identity (state w3) = true) as Hid3
    by (unfold InstanceState.has_identity in *; by rewrite Hkey3).
  pose (olds := IdentitySet.of_iterable old).
  pose (constants := IdentitySet.intersection olds new_iterable).
  pose (additions :=
          IdentitySet.difference (IdentitySet.of_iterable new_iterable) constants).
  pose (removals := IdentitySet.difference olds constants).
  destruct (append_loop self (AttributeImpl.key self) additions new_iterable w3)
    as (w4 & Hloop4 & _ & Hev4).
  destruct (remove_loop self (AttributeImpl.key self) (IdentitySet.to_list removals) w4)
    as (w5 & Hloop5 & _ & Hev5).
  pose (A := filter (λ m, m ∈ additions) new_iterable).
  assert (A = filter (λ x, x ∉ old) new_iterable) as HA.
  { apply filter_ext_elem_of. intros x Hx. unfold additions, constants, olds.
    rewrite elem_of_difference, elem_of_intersection, !elem_of_of_iterable.
    clear -Hx. tauto. }
  assert (∀ x, x ∈ removals ↔ x ∈ old ∧ x ∉ new_iterable) as HR.
  { intros x. unfold removals, constants, olds.
    rewrite elem_of_difference, elem_of_intersection, !elem_of_of_iterable.
    clear. tauto. }
  assert (NoDup removals) as HRdup by apply NoDup_difference, NoDup_of_iterable.
  exists w5, (map FiredAppend A ++ map FiredRemove (IdentitySet.to_list removals)).
  rewrite appended_app, removed_app, appended_map_append, appended_map_remove,
    removed_map_append, removed_map_remove, app_nil_r. cbn [app].
  unfold IdentitySet.to_list in *.
  split_and!.
  - unfold DynamicAttributeImpl.set. cbv beta iota.
    rewrite (bind_Ok _ _ w (state w) w eq_refl).
    destruct Hw as [Hid Hpend]. rewrite Hid.
    rewrite (bind_Ok _ _ w olds w2).
    2:{ rewrite (bind_Ok _ _ w (DynamicAttributeImpl.QueryObject q0) w1).
        - by rewrite (bind_Ok _ _ _ _ _ Hiter).
        - apply get_with_SQL. unfold has_flag.
          destruct (Z.eqb_spec (Z.land PASSIVE_OFF SQL_OK) 0) as [E|]; [|done].
          by apply PASSIVE_OFF_allows_SQL in E. }
    rewrite (bind_Ok _ _ _ _ _ Hmod).
    rewrite (bind_Ok _ _ w3 (state w3) w3 eq_refl).
    rewrite Hcs3, lookup_insert_eq, Hpend2, Hid3. cbn [negb CollectionHistory.added_items
      CollectionHistory.init IdentitySet.empty IdentitySet.union IdentitySet.update foldl].
    fold olds. fold constants. fold additions. fold removals.
    rewrite (bind_Ok _ _ _ _ _ Hloop4). exact Hloop5.
  - rewrite Hev5, Hev4, Hev3, <-app_assoc. f_equal.
    unfold w2, after_autoflush. by destruct (_ && _ && _).
  - done.
  - done.
  - intros x Hold Hnew. rewrite HA, list_elem_of_filter, HR. clear -Hold Hnew. tauto.
  - intros x Hnew Hold. rewrite HR. split; [|clear -Hold; tauto].
    rewrite HA. by apply (occurrences_filter (λ x, x ∉ old)).
  - intros x Hold Hnew. split.
    + apply occurrences_NoDup; [done|]. by apply HR.
    + rewrite HA, list_elem_of_filter. clear -Hold. tauto.
  - intros Hdup x Hnew Hold. rewrite HA.
    rewrite (occurrences_filter (λ x, x ∉ old)) by done.
    by apply occurrences_NoDup.
Qed.

Lemma set_fires_the_difference_witness :
  ∃ w' : World,
    DynamicAttributeImpl.set (Flags := sample_flags) sample_attr
      (Some [Obj 1; Obj 2; Obj 5]) None false (persisted_world [Obj 1; Obj 3; Obj 4])
    = Ok (tt, w') ∧
    events w' = [FiredAppend (Obj 2); FiredAppend (Obj 5);
                 FiredRemove (Obj 3); FiredRemove (Obj 4)].
Proof.
  destruct (set_fires_the_difference (Flags := sample_flags)
              (AttributeFlagsLaws0 := sample_flags_laws) sample_attr
              [Obj 1; Obj 2; Obj 5] (sample_session [Obj 1; Obj 3; Obj 4])
              (persisted_world [Obj 1; Obj 3; Obj 4])
              eq_refl (conj eq_refl eq_refl) (conj eq_refl eq_refl))
    as (w' & evs & Hrun & _).
  exists w'. split; [exact Hrun|].
  vm_compute in Hrun. injection Hrun as <-. reflexivity.
Defined.

(** C4, as stated, fails when [new_iterable] holds a new member twice: the
    member receives two append events. *)
Lemma set_duplicate_member_appended_twice :
  ∃ w' : World,
    DynamicAttributeImpl.set (Flags := sample_flags) sample_attr
      (Some [Obj 5; Obj 5]) None false (persisted_world [Obj 1])
    = Ok (tt, w') ∧
    pending sample_attr (state (persisted_world [Obj 1])) = CollectionHistory.init ∧
    (Obj 5 ∉ [Obj 1]) ∧
    events w' = [FiredAppend (Obj 5); FiredAppend (Obj 5); FiredRemove (Obj 1)] ∧
    occurrences (Obj 5) (appended (events w')) = 2%nat.
Proof.
  eexists. split; [vm_compute; reflexivity|]. split_and!; try by vm_compute.
  by intros ?%list_elem_of_singleton.
Qed.

(** * Further properties *)

(** ** The lists of a CollectionHistory *)

Section history_lists.
Implicit Types (c : CollectionHistory.t) (x : value) (s : IdentitySet.t) (l : list value).

Lemma prefix_add x s : s `prefix_of` IdentitySet.add x s.
Proof.
  unfold IdentitySet.add. destruct (IdentitySet.contains x s); [done|].
  by exists [x].
Qed.

Lemma prefix_update s l : s `prefix_of` IdentitySet.update s l.
Proof.
  unfold IdentitySet.update. revert s.
  induction l as [|x l IH]; intros s; simpl; [done|].
  etrans; [apply (prefix_add x)|apply IH].
Qed.

Lemma update_nil s : IdentitySet.update s [] = s.
Proof. done. Qed.

Lemma add_present x s : x ∈ s → IdentitySet.add x s = s.
Proof. intros H. unfold IdentitySet.add. by apply contains_true in H as ->. Qed.

Lemma add_absent x s : x ∉ s → IdentitySet.add x s = s ++ [x].
Proof. intros H. unfold IdentitySet.add. by apply contains_false in H as ->. Qed.

Lemma NoDup_remove x s : NoDup s → NoDup (IdentitySet.remove x s).
Proof. apply NoDup_filter. Qed.

Lemma stored_shape_init : stored_shape CollectionHistory.init.
Proof. unfold stored_shape. simpl. split_and!; try done; apply NoDup_nil_2. Qed.

Lemma stored_shape_add_added x c :
  stored_shape c → stored_shape (CollectionHistory.add_added x c).
Proof.
  intros (Ha & Hd & Hu & Hr). unfold stored_shape. simpl.
  split_and!; try done. by apply NoDup_add.
Qed.

Lemma stored_shape_add_removed x c :
  stored_shape c → stored_shape (CollectionHistory.add_removed x c).
Proof.
  intros (Ha & Hd & Hu & Hr). unfold stored_shape, CollectionHistory.add_removed.
  destruct (IdentitySet.contains x (CollectionHistory.added_items c)); simpl;
    split_and!; try done.
  - by apply NoDup_remove.
  - by apply NoDup_add.
Qed.

Lemma stored_shape_record_mutations (ms : list mutation) c :
  stored_shape c → stored_shape (foldl record_mutation c ms).
Proof.
  revert c. induction ms as [|[v i|v i] ms IH]; intros c Hc; simpl; [done| |];
    apply IH; [by apply stored_shape_add_added|by apply stored_shape_add_removed].
Qed.

End history_lists.

(** X1.  The view of a reconciling [CollectionHistory] splits the rows of the
    collection between [unchanged] and [deleted]: the three lists share no
    item pairwise and hold no item twice, and [unchanged] followed by
    [deleted] is a rearrangement of the rows found, each taken once.  A
    pending addition that is already among the rows is not reported as
    added. *)
Theorem as_history_splits_the_rows (c : CollectionHistory.t) (coll : list value) :
  NoDup (CollectionHistory.added_items c) →
  NoDup (CollectionHistory.deleted_items c) →
  let h := CollectionHistory.as_history (CollectionHistory.init_apply_to c coll) in
  (∀ x, ¬ (x ∈ added h ∧ x ∈ unchanged h)) ∧
  (∀ x, ¬ (x ∈ added h ∧ x ∈ deleted h)) ∧
  (∀ x, ¬ (x ∈ unchanged h ∧ x ∈ deleted h)) ∧
  NoDup (added h) ∧ NoDup (unchanged h) ∧ NoDup (deleted h) ∧
  unchanged h ++ deleted h ≡ₚ IdentitySet.of_iterable coll ∧
  (∀ x, x ∈ coll → x ∉ added h).
Proof.
  intros Ha Hd h.
  assert (∀ x, x ∈ added h ↔ x ∈ CollectionHistory.added_items c ∧ x ∉ coll) as Hadded.
  { intros x. subst h. simpl. unfold IdentitySet.to_list.
    by rewrite elem_of_difference, elem_of_of_iterable. }
  assert (∀ x, x ∈ deleted h ↔ x ∈ CollectionHistory.deleted_items c ∧ x ∈ coll)
    as Hdeleted.
  { intros x. subst h. simpl. unfold IdentitySet.to_list.
    by rewrite elem_of_intersection, elem_of_of_iterable. }
  assert (∀ x, x ∈ unchanged h ↔ x ∈ coll ∧ x ∉ deleted h) as Hunchanged.
  { intros x. subst h. simpl. unfold IdentitySet.to_list.
    by rewrite elem_of_difference, elem_of_of_iterable. }
  assert (NoDup (unchanged h)) as Hnu
    by exact (NoDup_difference _ _ (NoDup_of_iterable coll)).
  assert (NoDup (deleted h)) as Hnd
    by exact (NoDup_intersection _ _ Hd).
  split_and!; try done.
  - intros x. rewrite Hadded, Hunchanged. tauto.
  - intros x. rewrite Hadded, Hdeleted. tauto.
  - intros x. rewrite Hunchanged. tauto.
  - exact (NoDup_difference _ _ Ha).
  - apply NoDup_Permutation.
    + apply NoDup_app. split_and!; [done| |done].
      intros x. rewrite Hunchanged. tauto.
    + apply NoDup_of_iterable.
    + intros x. rewrite elem_of_app, elem_of_of_iterable, Hunchanged, Hdeleted.
      destruct (decide (x ∈ CollectionHistory.deleted_items c)); tauto.
  - intros x Hx. rewrite Hadded. tauto.
Qed.

Lemma as_history_splits_the_rows_witness :
  let c := CollectionHistory.add_removed (Obj 3)
             (CollectionHistory.add_added (Obj 2)
                (CollectionHistory.add_added (Obj 1) CollectionHistory.init)) in
  let h := CollectionHistory.as_history
             (CollectionHistory.init_apply_to c [Obj 2; Obj 3; Obj 4; Obj 3]) in
  h = {| added := [Obj 1]; unchanged := [Obj 2; Obj 4]; deleted := [Obj 3] |} ∧
  unchanged h ++ deleted h ≡ₚ [Obj 2; Obj 3; Obj 4].
Proof.
  intros c h. split; [reflexivity|].
  assert (NoDup (CollectionHistory.added_items c)) as Ha
    by (refine (bool_decide_unpack _ _); exact I).
  assert (NoDup (CollectionHistory.deleted_items c)) as Hd
    by (refine (bool_decide_unpack _ _); exact I).
  exact (proj1 (proj2 (proj2 (proj2 (proj2 (proj2 (proj2
    (as_history_splits_the_rows c [Obj 2; Obj 3; Obj 4; Obj 3] Ha Hd)))))))).
Defined.

(** X2.  [all_items], which [get_all_pending] hands out, holds every item
    that is added, unchanged or deleted, each once; it starts with
    [added_plus_unchanged], which starts with the additions in their order. *)
Theorem all_items_is_the_union (c : CollectionHistory.t) :
  NoDup (CollectionHistory.added_items c) →
  NoDup (CollectionHistory.all_items c) ∧
  (∀ x, x ∈ CollectionHistory.all_items c ↔
        x ∈ CollectionHistory.added_items c ∨
        x ∈ CollectionHistory.unchanged_items c ∨
        x ∈ CollectionHistory.deleted_items c) ∧
  (∀ x, x ∈ CollectionHistory.added_plus_unchanged c ↔
        x ∈ CollectionHistory.added_items c ∨
        x ∈ CollectionHistory.unchanged_items c) ∧
  CollectionHistory.added_plus_unchanged c `prefix_of` CollectionHistory.all_items c ∧
  CollectionHistory.added_items c `prefix_of` CollectionHistory.added_plus_unchanged c.
Proof.
  intros Ha. unfold CollectionHistory.all_items, CollectionHistory.added_plus_unchanged,
    IdentitySet.to_list, IdentitySet.union.
  split_and!.
  - by do 2 apply NoDup_update.
  - intros x. rewrite !elem_of_update. tauto.
  - intros x. by rewrite elem_of_update.
  - apply prefix_update.
  - apply prefix_update.
Qed.

Lemma all_items_is_the_union_witness :
  let c := CollectionHistory.mk [Obj 1; Obj 2] [Obj 3; Obj 1] [Obj 2; Obj 4] true in
  CollectionHistory.all_items c = [Obj 1; Obj 2; Obj 4; Obj 3] ∧
  NoDup (CollectionHistory.all_items c).
Proof.
  intros c. split; [reflexivity|].
  assert (NoDup (CollectionHistory.added_items c)) as Ha
    by (refine (bool_decide_unpack _ _); exact I).
  exact (proj1 (all_items_is_the_union c Ha)).
Defined.

(** ** What the pending-change map holds *)

(** X3.  Whatever appends and removes follow, the [CollectionHistory] kept
    in the pending-change map keeps its shape: no item twice among the
    additions nor among the deletions, no unchanged item, no reconciliation;
    its own [as_history] is the additions, nothing unchanged, and the
    deletions. *)
Theorem pending_changes_keep_their_shape (self : AttributeImpl.t)
    (ms : list mutation) (w : World) :
  stored_shape (pending self (state w)) →
  ∃ w', fire_all self ms w = Ok (tt, w') ∧
        stored_shape (pending self (state w')) ∧
        CollectionHistory.as_history (pending self (state w'))
        = {| added := CollectionHistory.added_items (pending self (state w'));
             unchanged := [];
             deleted := CollectionHistory.deleted_items (pending self (state w')) |}.
Proof.
  intros Hshape.
  destruct (fire_all_spec self ms w) as (w' & Hrun & Hpend & _).
  exists w'. split; [done|].
  assert (stored_shape (pending self (state w'))) as Hshape'
    by (rewrite Hpend; by apply stored_shape_record_mutations).
  split; [done|].
  destruct Hshape' as (_ & _ & Hu & Hr).
  unfold CollectionHistory.as_history. by rewrite Hr, Hu.
Qed.

Lemma pending_changes_keep_their_shape_witness :
  ∃ w', fire_all sample_attr
          [Append (Obj 1) None; Append (Obj 1) None; Remove (Obj 2) None;
           Remove (Obj 2) None]
          transient_world = Ok (tt, w') ∧
        stored_shape (pending sample_attr (state w')).
Proof.
  destruct (pending_changes_keep_their_shape sample_attr
              [Append (Obj 1) None; Append (Obj 1) None; Remove (Obj 2) None;
               Remove (Obj 2) None]
              transient_world stored_shape_init) as (w' & Hrun & Hshape & _).
  by exists w'.
Defined.

(** X4.  Appending an item that is already among the pending additions
    fires the event and leaves the pending changes as they are. *)
Theorem append_of_a_pending_item (self : AttributeImpl.t) (x : value)
    (initiator : option Initiator) (w : World) :
  AttributeImpl.is_not_self initiator self = true →
  x ∈ CollectionHistory.added_items (pending self (state w)) →
  ∃ w', DynamicAttributeImpl.append self x initiator w = Ok (tt, w') ∧
        pending self (state w') = pending self (state w) ∧
        events w' = events w ++ [FiredAppend x].
Proof.
  intros Hinit Hx.
  destruct (fire_spec self (Append x initiator) w) as (w' & Hrun & Hcs & _ & Hev).
  exists w'. split_and!.
  - unfold DynamicAttributeImpl.append. by rewrite Hinit.
  - rewrite (pending_after self w w' _ Hcs). simpl.
    unfold CollectionHistory.add_added. rewrite add_present by done.
    by destruct (pending self (state w)).
  - done.
Qed.

Lemma append_of_a_pending_item_witness :
  ∃ w1 w2,
    DynamicAttributeImpl.append sample_attr (Obj 1) None transient_world = Ok (tt, w1) ∧
    DynamicAttributeImpl.append sample_attr (Obj 1) None w1 = Ok (tt, w2) ∧
    pending sample_attr (state w2) = pending sample_attr (state w1) ∧
    events w2 = [FiredAppend (Obj 1); FiredAppend (Obj 1)].
Proof.
  assert (∃ w1,
            DynamicAttributeImpl.append sample_attr (Obj 1) None transient_world
              = Ok (tt, w1) ∧
            Obj 1 ∈ CollectionHistory.added_items (pending sample_attr (state w1)) ∧
            events w1 = [FiredAppend (Obj 1)]) as (w1 & Hw1 & Hin & Hev1).
  { eexists. split; [vm_compute; reflexivity|].
    split; [vm_compute; apply list_elem_of_here|reflexivity]. }
  destruct (append_of_a_pending_item sample_attr (Obj 1) None w1 eq_refl Hin)
    as (w2 & Hrun & Hpend & Hev).
  exists w1, w2. split_and!; [exact Hw1|exact Hrun|exact Hpend|].
  by rewrite Hev, Hev1.
Defined.

Lemma _modified_event_settled (self : AttributeImpl.t) (w : World) (c : CollectionHistory.t) :
  InstanceState.committed_state (state w) !! AttributeImpl.key self = Some c →
  InstanceState.modified (state w) = true →
  dict_ w !! AttributeImpl.key self = Some true →
  DynamicAttributeImpl._modified_event self w = Ok (AttributeImpl.key self, w).
Proof.
  intros Hk Hm Hd.
  unfold DynamicAttributeImpl._modified_event, modify, mbind, M_bind, mret, M_ret.
  simpl. do 2 f_equal.
  destruct w as [st d sess qs evs hp]. unfold with_dict, with_state. simpl in *.
  rewrite Hk. f_equal.
  - destruct st as [k cs m o mp]. simpl in *. by subst.
  - by apply insert_id.
Qed.

(** X5.  [_modified_event] is idempotent: run again, it changes nothing.
    After it the attribute has its entry in the pending-change map, holding
    what was pending, the state is flagged as modified, and the instance
    dictionary holds [True] under the key of the attribute. *)
Theorem _modified_event_idempotent (self : AttributeImpl.t) (w : World) :
  ∃ w', DynamicAttributeImpl._modified_event self w = Ok (AttributeImpl.key self, w') ∧
        DynamicAttributeImpl._modified_event self w' = Ok (AttributeImpl.key self, w') ∧
        InstanceState.committed_state (state w') !! AttributeImpl.key self
          = Some (pending self (state w)) ∧
        InstanceState.modified (state w') = true ∧
        dict_ w' !! AttributeImpl.key self = Some true.
Proof.
  destruct (_modified_event_spec self w) as (w' & Hrun & Hcs & _).
  assert (InstanceState.committed_state (state w') !! AttributeImpl.key self
          = Some (pending self (state w))) as Hk by (by rewrite Hcs, lookup_insert_eq).
  assert (InstanceState.modified (state w') = true) as Hm
    by (by injection Hrun as <-).
  assert (dict_ w' !! AttributeImpl.key self = Some true) as Hd
    by (injection Hrun as <-; simpl; by rewrite lookup_insert_eq).
  exists w'. split_and!; try done.
  by eapply _modified_event_settled.
Qed.

(** ** Reconciliation against the rows of the collection *)

Section reconciliation.
Context `{Flags : AttributeFlags}.
Implicit Types (self : AttributeImpl.t) (w : World).

(** What reconciliation leaves alone: everything but the store of query
    objects, where the query it runs is built. *)
Lemma _get_collection_history_reconciling (n : nat) self (passive : Z) w (s : Session) :
  InstanceState.has_identity (state w) = true →
  has_flag passive INIT_OK = true →
  object_session w = Some s →
  ∃ w', _get_collection_history (S n) self passive w
        = Ok (CollectionHistory.init_apply_to (pending self (state w))
                (sess_execute s (_statement (AppenderQueryBuilder.initial self (state w)))), w') ∧
        state w' = state w ∧ dict_ w' = dict_ w ∧ events w' = events w ∧
        hasparent w' = hasparent w ∧ object_session w' = object_session w.
Proof.
  intros Hid Hflag Hs.
  pose (q0 := fresh (dom (queries w))).
  pose (w1 := with_queries (insert q0 (AppenderQueryBuilder.initial self (state w))) w).
  pose (obj := AppenderQueryBuilder.set__autoflush false (AppenderQueryBuilder.initial self (state w))).
  pose (q1 := fresh (dom (queries w1))).
  pose (w2 := with_queries (insert q1 obj) w1).
  assert (AppenderQueryBuilder.autoflush false q0 w1 = Ok (q1, w2)) as Hauto.
  { unfold AppenderQueryBuilder.autoflush.
    apply (_generative_assign _ q0 (AppenderQueryBuilder.initial self (state w)) w1).
    apply lookup_insert_eq. }
  assert (_iter n q1 w2 = Ok (sess_execute s (_statement obj), w2)) as Hiter.
  { apply (_iter_attached n q1 obj w2 s); [apply lookup_insert_eq|done|done]. }
  exists w2. split; [|done].
  simpl. rewrite (bind_Ok (gets state) _ w (state w) w eq_refl). rewrite Hid, Hflag.
  cbn [andb]. rewrite (bind_Ok (AppenderQueryBuilder.__init__ self) _ w q0 w1 eq_refl).
  rewrite (bind_Ok _ _ _ _ _ Hauto). by rewrite (bind_Ok _ _ _ _ _ Hiter).
Qed.

Lemma _get_collection_history_detached (n : nat) self (passive : Z) w :
  InstanceState.has_identity (state w) = true →
  has_flag passive INIT_OK = true →
  object_session w = None →
  _get_collection_history (S n) self passive w = Raise DetachedInstanceError.
Proof.
  intros Hid Hflag Hs.
  pose (q0 := fresh (dom (queries w))).
  pose (w1 := with_queries (insert q0 (AppenderQueryBuilder.initial self (state w))) w).
  pose (obj := AppenderQueryBuilder.set__autoflush false (AppenderQueryBuilder.initial self (state w))).
  pose (q1 := fresh (dom (queries w1))).
  pose (w2 := with_queries (insert q1 obj) w1).
  assert (AppenderQueryBuilder.autoflush false q0 w1 = Ok (q1, w2)) as Hauto.
  { unfold AppenderQueryBuilder.autoflush.
    apply (_generative_assign _ q0 (AppenderQueryBuilder.initial self (state w)) w1).
    apply lookup_insert_eq. }
  assert (_iter n q1 w2 = Raise DetachedInstanceError) as Hiter.
  { apply (_iter_detached n q1 obj w2); [apply lookup_insert_eq|done|done]. }
  simpl. rewrite (bind_Ok (gets state) _ w (state w) w eq_refl). rewrite Hid, Hflag.
  cbn [andb]. rewrite (bind_Ok (AppenderQueryBuilder.__init__ self) _ w q0 w1 eq_refl).
  rewrite (bind_Ok _ _ _ _ _ Hauto). unfold mbind, M_bind. by rewrite Hiter.
Qed.

End reconciliation.

(** X6.  [get_history] in full.  For an instance with an identity and a
    passive flag that allows initialisation, attached to a session whose
    autoflush is off, it reconciles the pending changes against the rows its
    query finds and leaves the instance, its dictionary and the events fired
    as they are.  Without a session the same call raises
    [DetachedInstanceError].  For an instance without identity, or a flag
    without [INIT_OK], it reports the pending changes as they are, touches
    nothing and needs no session. *)
Theorem get_history_reconciles_without_flushing `{Flags : AttributeFlags}
    (self : AttributeImpl.t) (passive : Z) (w : World) :
  (InstanceState.has_identity (state w) = true → has_flag passive INIT_OK = true →
   ∀ s : Session, object_session w = Some s → sess_autoflush s = false →
   ∃ w', DynamicAttributeImpl.get_history self passive w
         = Ok (CollectionHistory.as_history
                 (CollectionHistory.init_apply_to (pending self (state w))
                    (sess_execute s
                       (_statement (AppenderQueryBuilder.initial self (state w))))),
               w') ∧
         state w' = state w ∧ dict_ w' = dict_ w ∧ events w' = events w) ∧
  (InstanceState.has_identity (state w) = true → has_flag passive INIT_OK = true →
   object_session w = None →
   DynamicAttributeImpl.get_history self passive w = Raise DetachedInstanceError) ∧
  (InstanceState.has_identity (state w) && has_flag passive INIT_OK = false →
   DynamicAttributeImpl.get_history self passive w
   = Ok (CollectionHistory.as_history (pending self (state w)), w)).
Proof.
  unfold DynamicAttributeImpl.get_history, DynamicAttributeImpl._get_collection_history.
  change recursion_limit with (S 999). split_and!.
  - intros Hid Hflag s Hs _.
    destruct (_get_collection_history_reconciling 999 self passive w s Hid Hflag Hs)
      as (w' & Hrun & Hst & Hd & Hev & _).
    exists w'. by rewrite (bind_Ok _ _ _ _ _ Hrun).
  - intros Hid Hflag Hs. unfold mbind, M_bind.
    by rewrite _get_collection_history_detached.
  - intros Hplain.
    by rewrite (bind_Ok _ _ _ _ _ (_get_collection_history_plain _ self passive w Hplain)).
Qed.

(** ** Bulk replacement and the pending changes *)

Section bulk_replace_pending.
Implicit Types (self : AttributeImpl.t) (w : World) (x v : value) (l : list value)
  (c : CollectionHistory.t).

Lemma fire_append_event_stored self v (initiator : option Initiator) w c :
  InstanceState.committed_state (state w) !! AttributeImpl.key self = Some c →
  ∃ w', DynamicAttributeImpl.fire_append_event self v initiator
          (Some (AttributeImpl.key self)) w = Ok (tt, w') ∧
        InstanceState.committed_state (state w') !! AttributeImpl.key self
          = Some (CollectionHistory.add_added v c) ∧
        preserved w w' ∧ events w' = events w ++ [FiredAppend v].
Proof.
  intros Hk.
  unfold DynamicAttributeImpl.fire_append_event, DynamicAttributeImpl.update_history,
    modify, mbind, M_bind, mret, M_ret. simpl.
  match goal with |- context [if ?b then _ else _] => destruct b end;
    (eexists; split; [reflexivity|]; simpl; by rewrite lookup_alter_eq, Hk).
Qed.

Lemma fire_remove_event_stored self v (initiator : option Initiator) w c :
  InstanceState.committed_state (state w) !! AttributeImpl.key self = Some c →
  ∃ w', DynamicAttributeImpl.fire_remove_event self v initiator
          (Some (AttributeImpl.key self)) w = Ok (tt, w') ∧
        InstanceState.committed_state (state w') !! AttributeImpl.key self
          = Some (CollectionHistory.add_removed v c) ∧
        preserved w w' ∧ events w' = events w ++ [FiredRemove v].
Proof.
  intros Hk.
  unfold DynamicAttributeImpl.fire_remove_event, DynamicAttributeImpl.update_history,
    modify, mbind, M_bind, mret, M_ret. simpl.
  match goal with |- context [if ?b then _ else _] => destruct b end;
    (eexists; split; [reflexivity|]; simpl; by rewrite lookup_alter_eq, Hk).
Qed.

Lemma append_loop_stored self (additions : IdentitySet.t) l w c :
  InstanceState.committed_state (state w) !! AttributeImpl.key self = Some c →
  ∃ w', for_each l (λ member,
          if IdentitySet.contains member additions
          then DynamicAttributeImpl.fire_append_event self member None
                 (Some (AttributeImpl.key self))
          else mret tt) w = Ok (tt, w') ∧
        InstanceState.committed_state (state w') !! AttributeImpl.key self
          = Some (foldl (λ c v, CollectionHistory.add_added v c) c
                        (filter (λ m, m ∈ additions) l)) ∧
        preserved w w' ∧
        events w' = events w ++ map FiredAppend (filter (λ m, m ∈ additions) l).
Proof.
  revert w c. induction l as [|x l IH]; intros w c Hk.
  - exists w. simpl. rewrite app_nil_r. by split_and!.
  - cbn [for_each]. destruct (IdentitySet.contains x additions) eqn:E.
    + apply contains_true in E.
      destruct (fire_append_event_stored self x None w c Hk)
        as (w1 & Hrun & Hk1 & Hpres & Hev).
      destruct (IH w1 _ Hk1) as (w2 & Hrun2 & Hk2 & Hpres2 & Hev2).
      exists w2. rewrite (bind_Ok _ _ _ _ _ Hrun). split_and!; [done| | |].
      * by rewrite filter_cons_True.
      * by eapply preserved_trans.
      * rewrite Hev2, Hev, filter_cons_True by done. by rewrite <-app_assoc.
    + apply contains_false in E.
      destruct (IH w c Hk) as (w2 & Hrun2 & Hk2 & Hpres2 & Hev2).
      exists w2. rewrite (bind_Ok _ _ w tt w eq_refl).
      rewrite filter_cons_False by done. by split_and!.
Qed.

Lemma remove_loop_stored self l w c :
  InstanceState.committed_state (state w) !! AttributeImpl.key self = Some c →
  ∃ w', for_each l (λ member,
          DynamicAttributeImpl.fire_remove_event self member None
            (Some (AttributeImpl.key self))) w = Ok (tt, w') ∧
        InstanceState.committed_state (state w') !! AttributeImpl.key self
          = Some (foldl (λ c v, CollectionHistory.add_removed v c) c l) ∧
        preserved w w' ∧ events w' = events w ++ map FiredRemove l.
Proof.
  revert w c. induction l as [|x l IH]; intros w c Hk.
  - exists w. simpl. rewrite app_nil_r. by split_and!.
  - cbn [for_each].
    destruct (fire_remove_event_stored self x None w c Hk)
      as (w1 & Hrun & Hk1 & Hpres & Hev).
    destruct (IH w1 _ Hk1) as (w2 & Hrun2 & Hk2 & Hpres2 & Hev2).
    exists w2. rewrite (bind_Ok _ _ _ _ _ Hrun). split_and!; [done|done| |].
    + by eapply preserved_trans.
    + rewrite Hev2, Hev. by rewrite <-app_assoc.
Qed.

(** Additions one after the other. *)
Lemma added_items_fold_add_added l c :
  CollectionHistory.added_items (foldl (λ c v, CollectionHistory.add_added v c) c l)
    = IdentitySet.update (CollectionHistory.added_items c) l ∧
  CollectionHistory.deleted_items (foldl (λ c v, CollectionHistory.add_added v c) c l)
    = CollectionHistory.deleted_items c.
Proof.
  revert c. induction l as [|x l IH]; intros c; [done|].
  simpl. destruct (IH (CollectionHistory.add_added x c)) as [-> ->]. done.
Qed.

Lemma add_removed_pending x c :
  x ∈ CollectionHistory.added_items c →
  CollectionHistory.add_removed x c
  = CollectionHistory.mk (IdentitySet.remove x (CollectionHistory.added_items c))
      (CollectionHistory.deleted_items c) (CollectionHistory.unchanged_items c)
      (CollectionHistory._reconcile_collection c).
Proof.
  intros H. unfold CollectionHistory.add_removed. by apply contains_true in H as ->.
Qed.

Lemma add_removed_absent x c :
  x ∉ CollectionHistory.added_items c →
  CollectionHistory.add_removed x c
  = CollectionHistory.mk (CollectionHistory.added_items c)
      (IdentitySet.add x (CollectionHistory.deleted_items c))
      (CollectionHistory.unchanged_items c) (CollectionHistory._reconcile_collection c).
Proof.
  intros H. unfold CollectionHistory.add_removed. by apply contains_false in H as ->.
Qed.

(** Removals of items that are pending additions, each once: the items
    leave the additions, and nothing is marked for deletion. *)
Lemma fold_add_removed_pending l c :
  NoDup l → (∀ x, x ∈ l → x ∈ CollectionHistory.added_items c) →
  let c' := foldl (λ c v, CollectionHistory.add_removed v c) c l in
  (∀ x, x ∈ CollectionHistory.added_items c' ↔
        x ∈ CollectionHistory.added_items c ∧ x ∉ l) ∧
  (NoDup (CollectionHistory.added_items c) → NoDup (CollectionHistory.added_items c')) ∧
  CollectionHistory.deleted_items c' = CollectionHistory.deleted_items c.
Proof.
  revert c. induction l as [|r l IH]; intros c Hl Hin; cbv zeta; cbn [foldl].
  - split_and!; [|done..]. intros x. rewrite elem_of_nil. tauto.
  - apply NoDup_cons in Hl as [Hr Hl].
    rewrite add_removed_pending by (apply Hin; by left).
    match goal with |- context [foldl _ ?c1 l] => destruct (IH c1 Hl) as (IH1 & IH2 & IH3) end.
    { intros x Hx. cbn [CollectionHistory.added_items]. apply elem_of_remove. split.
      - intros ->. done.
      - apply Hin. by right. }
    cbn [CollectionHistory.added_items CollectionHistory.deleted_items] in *. split_and!.
    + intros x. rewrite IH1, elem_of_remove, elem_of_cons. tauto.
    + intros Hnd. by apply IH2, NoDup_remove.
    + done.
Qed.

(** Removals of items that are not pending additions: the items are marked
    for deletion, and the additions stay. *)
Lemma fold_add_removed_absent l c :
  (∀ x, x ∈ l → x ∉ CollectionHistory.added_items c) →
  let c' := foldl (λ c v, CollectionHistory.add_removed v c) c l in
  CollectionHistory.added_items c' = CollectionHistory.added_items c ∧
  CollectionHistory.deleted_items c'
    = IdentitySet.update (CollectionHistory.deleted_items c) l.
Proof.
  revert c. induction l as [|r l IH]; intros c Hin; cbv zeta; cbn [foldl]; [done|].
  rewrite add_removed_absent by (apply Hin; by left).
  match goal with |- context [foldl _ ?c1 l] => destruct (IH c1) as (IH1 & IH2) end.
  { intros x Hx. cbn [CollectionHistory.added_items]. apply Hin. by right. }
  cbn [CollectionHistory.added_items CollectionHistory.deleted_items] in *.
  by rewrite IH1, IH2.
Qed.

End bulk_replace_pending.

(** X7.  [set(new_iterable)] on an instance without identity replaces the
    pending additions: afterwards [added_items] holds exactly the members of
    [new_iterable], each once, and [deleted_items] is as before, since an
    item that leaves the additions was never a row.  Append events are
    fired, in the order of [new_iterable], for the members that were not
    pending; remove events follow, for the pending additions that are not in
    [new_iterable].  No session is needed and no query runs. *)
Theorem set_on_a_transient_instance `{Flags : AttributeFlags}
    (self : AttributeImpl.t) (new_iterable : list value) (w : World) :
  InstanceState.has_identity (state w) = false →
  NoDup (CollectionHistory.added_items (pending self (state w))) →
  let added0 := CollectionHistory.added_items (pending self (state w)) in
  ∃ w', DynamicAttributeImpl.set self (Some new_iterable) None false w = Ok (tt, w') ∧
        (∀ x, x ∈ CollectionHistory.added_items (pending self (state w')) ↔
              x ∈ new_iterable) ∧
        NoDup (CollectionHistory.added_items (pending self (state w'))) ∧
        CollectionHistory.deleted_items (pending self (state w'))
          = CollectionHistory.deleted_items (pending self (state w)) ∧
        events w' = events w
                    ++ map FiredAppend (filter (λ x, x ∉ added0) new_iterable)
                    ++ map FiredRemove (filter (λ x, x ∉ new_iterable) added0) ∧
        queries w' = queries w.
Proof.
  intros Hid Hnd added0.
  destruct (_modified_event_spec self w)
    as (w3 & Hmod & Hcs3 & (Hkey3 & _ & Hq3) & Hev3 & _).
  assert (InstanceState.committed_state (state w3) !! AttributeImpl.key self
          = Some (pending self (state w))) as Hk3 by (by rewrite Hcs3, lookup_insert_eq).
  assert (InstanceState.has_identity (state w3) = false) as Hid3
    by (unfold InstanceState.has_identity in *; by rewrite Hkey3).
  pose (constants := IdentitySet.intersection added0 new_iterable).
  pose (additions :=
          IdentitySet.difference (IdentitySet.of_iterable new_iterable) constants).
  pose (removals := IdentitySet.difference added0 constants).
  pose (A := filter (λ m, m ∈ additions) new_iterable).
  destruct (append_loop_stored self additions new_iterable w3 _ Hk3)
    as (w4 & Hloop4 & Hk4 & (_ & _ & Hq4) & Hev4).
  destruct (remove_loop_stored self (IdentitySet.to_list removals) w4 _ Hk4)
    as (w5 & Hloop5 & Hk5 & (_ & _ & Hq5) & Hev5).
  fold A in Hk4, Hk5, Hev4.
  destruct (added_items_fold_add_added A (pending self (state w))) as [Ha1 Hd1].
  assert (∀ x, x ∈ A ↔ x ∈ new_iterable ∧ x ∉ added0) as HA.
  { intros x. unfold A, additions, constants.
    rewrite list_elem_of_filter, elem_of_difference, elem_of_intersection,
      elem_of_of_iterable. tauto. }
  assert (∀ x, x ∈ removals ↔ x ∈ added0 ∧ x ∉ new_iterable) as HR.
  { intros x. unfold removals, constants.
    rewrite elem_of_difference, elem_of_intersection. tauto. }
  destruct (fold_add_removed_pending (IdentitySet.to_list removals)
              (foldl (λ c v, CollectionHistory.add_added v c) (pending self (state w)) A))
    as (Ha2 & Hn2 & Hd2).
  { by apply NoDup_difference. }
  { intros x Hx. rewrite Ha1, elem_of_update. left. by apply HR in Hx as [? _]. }
  assert (pending self (state w5)
          = foldl (λ c v, CollectionHistory.add_removed v c)
              (foldl (λ c v, CollectionHistory.add_added v c) (pending self (state w)) A)
              (IdentitySet.to_list removals)) as Hpend5
    by (unfold pending at 1; by rewrite Hk5).
  exists w5. rewrite Hpend5. split_and!.
  - unfold DynamicAttributeImpl.set. cbv beta iota.
    rewrite (bind_Ok (gets state) _ w (state w) w eq_refl). rewrite Hid.
    rewrite (bind_Ok (mret IdentitySet.empty) _ w IdentitySet.empty w eq_refl).
    rewrite (bind_Ok _ _ _ _ _ Hmod).
    rewrite (bind_Ok (gets state) _ w3 (state w3) w3 eq_refl).
    rewrite Hk3, Hid3. cbn [negb]. fold added0. fold constants. fold additions.
    fold removals.
    rewrite (bind_Ok _ _ _ _ _ Hloop4). exact Hloop5.
  - intros x. rewrite Ha2, Ha1, elem_of_update, HA. unfold IdentitySet.to_list.
    rewrite HR. fold added0.
    destruct (decide (x ∈ added0)), (decide (x ∈ new_iterable)); tauto.
  - apply Hn2. rewrite Ha1. by apply NoDup_update.
  - by rewrite Hd2, Hd1.
  - rewrite Hev5, Hev4, Hev3, <-app_assoc. do 2 f_equal.
    + f_equal. apply filter_ext_elem_of. intros x Hx. unfold additions, constants.
      rewrite elem_of_difference, elem_of_intersection, elem_of_of_iterable. tauto.
    + f_equal. unfold IdentitySet.to_list, removals, IdentitySet.difference.
      apply filter_ext_elem_of. intros x Hx. unfold constants.
      rewrite elem_of_intersection. tauto.
  - by rewrite Hq5, Hq4, Hq3.
Qed.

Lemma set_on_a_transient_instance_witness :
  ∃ w1 w2,
    fire_all sample_attr [Append (Obj 1) None; Append (Obj 2) None; Remove (Obj 9) None]
      transient_world = Ok (tt, w1) ∧
    DynamicAttributeImpl.set (Flags := sample_flags) sample_attr
      (Some [Obj 3; Obj 2; Obj 3]) None false w1 = Ok (tt, w2) ∧
    pending sample_attr (state w2)
      = CollectionHistory.mk [Obj 2; Obj 3] [Obj 9] [] false ∧
    (∀ x, x ∈ CollectionHistory.added_items (pending sample_attr (state w2)) ↔
          x ∈ [Obj 3; Obj 2; Obj 3]).
Proof.
  assert (∃ w1,
            fire_all sample_attr
              [Append (Obj 1) None; Append (Obj 2) None; Remove (Obj 9) None]
              transient_world = Ok (tt, w1) ∧
            InstanceState.has_identity (state w1) = false ∧
            pending sample_attr (state w1)
              = CollectionHistory.mk [Obj 1; Obj 2] [Obj 9] [] false)
    as (w1 & Hw1 & Hid & Hp1).
  { eexists. split; [vm_compute; reflexivity|]. by split. }
  destruct (set_on_a_transient_instance (Flags := sample_flags) sample_attr
              [Obj 3; Obj 2; Obj 3] w1 Hid) as (w2 & Hrun & Hmem & _).
  { rewrite Hp1. simpl. refine (bool_decide_unpack _ _). exact I. }
  exists w1, w2. split_and!; [exact Hw1|exact Hrun| |exact Hmem].
  vm_compute in Hw1. injection Hw1 as <-.
  vm_compute in Hrun. injection Hrun as <-. reflexivity.
Defined.

Section bulk_replace_persisted.
Context `{Flags : AttributeFlags}.
Implicit Types (self : AttributeImpl.t) (w : World) (x : value).

Lemma after_autoflush_off (obj : AppenderQueryObject) (s : Session) w :
  sess_autoflush s = false → after_autoflush obj s w = w.
Proof.
  intros H. unfold after_autoflush. rewrite H. by destruct (_autoflush obj).
Qed.

Lemma same_instance_refl w : same_instance w w.
Proof. by split. Qed.

Lemma same_instance_trans w1 w2 w3 :
  same_instance w1 w2 → same_instance w2 w3 → same_instance w1 w3.
Proof. unfold same_instance. intros [-> ->] [-> ->]. done. Qed.

Lemma _modified_event_same_instance self w (k : string) w' :
  DynamicAttributeImpl._modified_event self w = Ok (k, w') → same_instance w w'.
Proof.
  unfold DynamicAttributeImpl._modified_event, modify, mbind, M_bind, mret, M_ret.
  simpl. intros [= _ <-]. unfold same_instance. simpl.
  by destruct (InstanceState.committed_state (state w) !! AttributeImpl.key self).
Qed.

Lemma fire_append_event_same_instance self x (k : string) w w' :
  DynamicAttributeImpl.fire_append_event self x None (Some k) w = Ok (tt, w') →
  same_instance w w'.
Proof.
  unfold DynamicAttributeImpl.fire_append_event, DynamicAttributeImpl.update_history,
    modify, mbind, M_bind, mret, M_ret. simpl.
  match goal with |- context [if ?b then _ else _] => destruct b end;
    by intros [= <-].
Qed.

Lemma fire_remove_event_same_instance self x (k : string) w w' :
  DynamicAttributeImpl.fire_remove_event self x None (Some k) w = Ok (tt, w') →
  same_instance w w'.
Proof.
  unfold DynamicAttributeImpl.fire_remove_event, DynamicAttributeImpl.update_history,
    modify, mbind, M_bind, mret, M_ret. simpl.
  match goal with |- context [if ?b then _ else _] => destruct b end;
    by intros [= <-].
Qed.

Lemma for_each_same_instance {A : Type} (body : A → M unit) (l : list A) :
  (∀ a w w', body a w = Ok (tt, w') → same_instance w w') →
  ∀ w w', for_each l body w = Ok (tt, w') → same_instance w w'.
Proof.
  intros Hbody. induction l as [|a l IH]; intros w w'; cbn [for_each].
  - intros [= <-]. apply same_instance_refl.
  - unfold mbind, M_bind at 1. destruct (body a w) as [[[] w1]|e] eqn:E; [|done].
    intros Hrest. eapply same_instance_trans; [by eapply Hbody|by apply IH].
Qed.

(** The pending changes [set] leaves on a persisted instance for which
    nothing was pending, attached to a session whose autoflush is off: the
    additions are the members that are no rows, the deletions the rows that
    are no members. *)
Lemma set_persisted_pending `{!AttributeFlagsLaws Flags} self
    (new_iterable : list value) (s : Session) w :
  object_session w = Some s →
  sess_autoflush s = false →
  persisted_and_settled self (state w) →
  let old := sess_execute s (_statement (AppenderQueryBuilder.initial self (state w))) in
  ∃ w', DynamicAttributeImpl.set self (Some new_iterable) None false w = Ok (tt, w') ∧
        (∀ x, x ∈ CollectionHistory.added_items (pending self (state w')) ↔
              x ∈ new_iterable ∧ x ∉ old) ∧
        (∀ x, x ∈ CollectionHistory.deleted_items (pending self (state w')) ↔
              x ∈ old ∧ x ∉ new_iterable) ∧
        stored_shape (pending self (state w')) ∧
        InstanceState.has_identity (state w') = true ∧
        object_session w' = Some s ∧
        same_instance w w'.
Proof.
  intros Hs Hquiet [Hid Hpend] old.
  pose (q0 := fresh (dom (queries w))).
  pose (w1 := with_queries (insert q0 (AppenderQueryBuilder.initial self (state w))) w).
  assert (_iter recursion_limit q0 w1 = Ok (old, w1)) as Hiter.
  { rewrite <-(after_autoflush_off (AppenderQueryBuilder.initial self (state w)) s w1)
      at 2 by done.
    apply _iter_attached; [apply lookup_insert_eq|done|].
    by rewrite after_autoflush_off. }
  destruct (_modified_event_spec self w1)
    as (w3 & Hmod & Hcs3 & (Hkey3 & Hs3 & _) & _).
  assert (InstanceState.committed_state (state w3) !! AttributeImpl.key self
          = Some CollectionHistory.init) as Hk3.
  { rewrite Hcs3, lookup_insert_eq. f_equal. exact Hpend. }
  assert (InstanceState.has_identity (state w3) = true) as Hid3.
  { unfold InstanceState.has_identity in *. rewrite Hkey3. exact Hid. }
  pose (olds := IdentitySet.of_iterable old).
  pose (constants := IdentitySet.intersection olds new_iterable).
  pose (additions :=
          IdentitySet.difference (IdentitySet.of_iterable new_iterable) constants).
  pose (removals := IdentitySet.difference olds constants).
  pose (A := filter (λ m, m ∈ additions) new_iterable).
  destruct (append_loop_stored self additions new_iterable w3 _ Hk3)
    as (w4 & Hloop4 & Hk4 & (Hkey4 & Hs4 & _) & _).
  destruct (remove_loop_stored self (IdentitySet.to_list removals) w4 _ Hk4)
    as (w5 & Hloop5 & Hk5 & (Hkey5 & Hs5 & _) & _).
  fold A in Hk4, Hk5.
  destruct (added_items_fold_add_added A CollectionHistory.init) as [Ha1 Hd1].
  assert (∀ x, x ∈ A ↔ x ∈ new_iterable ∧ x ∉ old) as HA.
  { intros x. unfold A, additions, constants, olds.
    rewrite list_elem_of_filter, elem_of_difference, elem_of_intersection,
      !elem_of_of_iterable. tauto. }
  assert (∀ x, x ∈ removals ↔ x ∈ old ∧ x ∉ new_iterable) as HR.
  { intros x. unfold removals, constants, olds.
    rewrite elem_of_difference, elem_of_intersection, !elem_of_of_iterable. tauto. }
  destruct (fold_add_removed_absent (IdentitySet.to_list removals)
              (foldl (λ c v, CollectionHistory.add_added v c) CollectionHistory.init A))
    as (Ha2 & Hd2).
  { intros x Hx. rewrite Ha1, elem_of_update, HA. apply HR in Hx.
    cbn [CollectionHistory.added_items CollectionHistory.init IdentitySet.empty].
    rewrite elem_of_nil. tauto. }
  assert (pending self (state w5)
          = foldl (λ c v, CollectionHistory.add_removed v c)
              (foldl (λ c v, CollectionHistory.add_added v c) CollectionHistory.init A)
              (IdentitySet.to_list removals)) as Hpend5
    by (unfold pending at 1; by rewrite Hk5).
  exists w5. split_and!.
  - unfold DynamicAttributeImpl.set. cbv beta iota.
    rewrite (bind_Ok (gets state) _ w (state w) w eq_refl).
    rewrite Hid.
    rewrite (bind_Ok _ _ w olds w1).
    2:{ rewrite (bind_Ok _ _ w (DynamicAttributeImpl.QueryObject q0) w1).
        - by rewrite (bind_Ok _ _ _ _ _ Hiter).
        - apply get_with_SQL. unfold has_flag.
          destruct (Z.eqb_spec (Z.land PASSIVE_OFF SQL_OK) 0) as [E|]; [|done].
          by apply PASSIVE_OFF_allows_SQL in E. }
    rewrite (bind_Ok _ _ _ _ _ Hmod).
    rewrite (bind_Ok (gets state) _ w3 (state w3) w3 eq_refl).
    rewrite Hk3, Hid3. cbn [negb CollectionHistory.added_items
      CollectionHistory.init IdentitySet.empty IdentitySet.union IdentitySet.update foldl].
    fold olds. fold constants. fold additions. fold removals.
    rewrite (bind_Ok _ _ _ _ _ Hloop4). exact Hloop5.
  - intros x. rewrite Hpend5, Ha2, Ha1, elem_of_update, HA.
    cbn [CollectionHistory.added_items CollectionHistory.init IdentitySet.empty].
    rewrite elem_of_nil. tauto.
  - intros x. rewrite Hpend5, Hd2, Hd1, elem_of_update. unfold IdentitySet.to_list.
    rewrite HR.
    cbn [CollectionHistory.deleted_items CollectionHistory.init IdentitySet.empty].
    rewrite elem_of_nil. tauto.
  - rewrite Hpend5.
    assert (∀ (l : list value) c, stored_shape c →
              stored_shape (foldl (λ c v, CollectionHistory.add_added v c) c l)) as Hadd.
    { clear. intros l. induction l as [|v l IH]; intros c Hc; [done|].
      simpl. by apply IH, stored_shape_add_added. }
    assert (∀ (l : list value) c, stored_shape c →
              stored_shape (foldl (λ c v, CollectionHistory.add_removed v c) c l)) as Hrem.
    { clear. intros l. induction l as [|v l IH]; intros c Hc; [done|].
      simpl. by apply IH, stored_shape_add_removed. }
    apply Hrem, Hadd, stored_shape_init.
  - unfold InstanceState.has_identity in *. by rewrite Hkey5, Hkey4.
  - by rewrite Hs5, Hs4, Hs3.
  - apply (same_instance_trans w w1); [by split|].
    apply (same_instance_trans w1 w3);
      [by eapply _modified_event_same_instance|].
    apply (same_instance_trans w3 w4).
    + eapply for_each_same_instance; [|exact Hloop4].
      intros a wa wa'. cbv beta. destruct (IdentitySet.contains a additions).
      * apply fire_append_event_same_instance.
      * intros [= <-]. apply same_instance_refl.
    + eapply for_each_same_instance; [|exact Hloop5].
      intros a wa wa'. cbv beta. apply fire_remove_event_same_instance.
Qed.

End bulk_replace_persisted.

(** X8.  [set] followed by [get_history].  On a persisted instance for
    which nothing is pending, attached to a session whose autoflush is off,
    [set(new_iterable)] and then [get_history] with a flag that allows
    initialisation report the three-way difference between the rows of the
    collection and [new_iterable]: added are the members that are no rows,
    deleted the rows that are no members, unchanged the rows that are
    members; no list holds an item twice. *)
Theorem set_then_get_history `{Flags : AttributeFlags} `{!AttributeFlagsLaws Flags}
    (self : AttributeImpl.t) (new_iterable : list value) (s : Session) (passive : Z)
    (w : World) :
  object_session w = Some s →
  sess_autoflush s = false →
  persisted_and_settled self (state w) →
  has_flag passive INIT_OK = true →
  let old := sess_execute s (_statement (AppenderQueryBuilder.initial self (state w))) in
  ∃ (w' w'' : World) (h : History),
    DynamicAttributeImpl.set self (Some new_iterable) None false w = Ok (tt, w') ∧
    DynamicAttributeImpl.get_history self passive w' = Ok (h, w'') ∧
    (∀ x, x ∈ added h ↔ x ∈ new_iterable ∧ x ∉ old) ∧
    (∀ x, x ∈ deleted h ↔ x ∈ old ∧ x ∉ new_iterable) ∧
    (∀ x, x ∈ unchanged h ↔ x ∈ old ∧ x ∈ new_iterable) ∧
    NoDup (added h) ∧ NoDup (deleted h) ∧ NoDup (unchanged h).
Proof.
  intros Hs Hquiet Hw Hflag old.
  destruct (set_persisted_pending self new_iterable s w Hs Hquiet Hw)
    as (w' & Hset & Hadded & Hdeleted & (Hna & Hnd & _) & Hid' & Hs' & Hobj & Hmapper).
  destruct (_get_collection_history_reconciling 999 self passive w' s Hid' Hflag Hs')
    as (w'' & Hrun & _).
  assert (AppenderQueryBuilder.initial self (state w')
          = AppenderQueryBuilder.initial self (state w)) as Hsame
    by (unfold AppenderQueryBuilder.initial; by rewrite Hobj, Hmapper).
  rewrite Hsame in Hrun.
  fold old in Hadded, Hdeleted, Hrun.
  exists w', w'', (CollectionHistory.as_history
                     (CollectionHistory.init_apply_to (pending self (state w')) old)).
  split; [exact Hset|]. split.
  { unfold DynamicAttributeImpl.get_history, DynamicAttributeImpl._get_collection_history.
    change recursion_limit with (S 999). by rewrite (bind_Ok _ _ _ _ _ Hrun). }
  cbn [CollectionHistory.as_history CollectionHistory.init_apply_to
       CollectionHistory._reconcile_collection CollectionHistory.added_items
       CollectionHistory.deleted_items CollectionHistory.unchanged_items
       added deleted unchanged].
  unfold IdentitySet.to_list.
  split_and!.
  - intros x. rewrite elem_of_difference, elem_of_of_iterable, Hadded. tauto.
  - intros x. rewrite elem_of_intersection, elem_of_of_iterable, Hdeleted. tauto.
  - intros x. rewrite elem_of_difference, elem_of_intersection, !elem_of_of_iterable,
      Hdeleted.
    destruct (decide (x ∈ new_iterable)); tauto.
  - by apply NoDup_difference.
  - by apply NoDup_intersection.
  - apply NoDup_difference, NoDup_of_iterable.
Qed.

Lemma set_then_get_history_witness :
  ∃ (w' w'' : World),
    DynamicAttributeImpl.set (Flags := sample_flags) sample_attr
      (Some [Obj 5; Obj 1; Obj 5]) None false (quiet_world [Obj 1; Obj 3; Obj 4])
    = Ok (tt, w') ∧
    DynamicAttributeImpl.get_history (Flags := sample_flags) sample_attr 31 w'
    = Ok ({| added := [Obj 5]; unchanged := [Obj 1]; deleted := [Obj 3; Obj 4] |}, w'').
Proof.
  destruct (set_then_get_history (Flags := sample_flags)
              (AttributeFlagsLaws0 := sample_flags_laws) sample_attr
              [Obj 5; Obj 1; Obj 5] (quiet_session [Obj 1; Obj 3; Obj 4]) 31
              (quiet_world [Obj 1; Obj 3; Obj 4])
              eq_refl eq_refl (conj eq_refl eq_refl) eq_refl)
    as (w' & w'' & h & Hset & Hget & _).
  exists w', w''. split; [exact Hset|].
  rewrite Hget. vm_compute in Hset. injection Hset as <-.
  vm_compute in Hget. injection Hget as <- <-. reflexivity.
Defined.

(** ** Reading and writing through the query *)

Section collection_protocol.
Context `{Flags : AttributeFlags}.
Implicit Types (w : World) (q : positive) (obj : AppenderQueryObject).

Lemma extend_run q obj (items : list value) w :
  queries w !! q = Some obj →
  AppenderQuery.extend q items w
  = fire_all (attr obj) (map (λ v, Append v None) items) w.
Proof.
  revert w. induction items as [|v items IH]; intros w Hq; [done|].
  unfold AppenderQuery.extend, fire_all in *. cbn [for_each map].
  destruct (fire_spec (attr obj) (Append v None) w) as (w1 & Hrun & _ & (_ & _ & Hq1) & _).
  rewrite (bind_Ok _ _ _ _ _ Hrun).
  rewrite (bind_Ok _ _ w tt w1).
  - apply IH. by rewrite Hq1.
  - rewrite (bind_Ok _ _ _ _ _ (deref_Ok _ _ _ Hq)). exact Hrun.
Qed.

(** Without identity and without session, the rows are the pending
    additions. *)
Lemma _iter_transient (n : nat) q obj w :
  queries w !! q = Some obj →
  InstanceState.has_identity (state w) = false →
  object_session w = None →
  _iter (S n) q w
  = Ok (CollectionHistory.added_items (pending (attr obj) (state w)), w).
Proof.
  intros Hq Hid Hs.
  assert (detached w = false) as Hd by (unfold detached; by rewrite Hid).
  simpl.
  rewrite (bind_Ok _ _ _ _ _ (deref_Ok _ _ _ Hq)).
  rewrite (bind_Ok _ _ _ _ _ (session_detached obj w Hs)).
  rewrite (bind_Ok (gets detached) _ w (detached w) w eq_refl). rewrite Hd.
  assert (InstanceState.has_identity (state w) && has_flag PASSIVE_NO_INITIALIZE INIT_OK
          = false) as Hplain by (by rewrite Hid).
  by rewrite (bind_Ok _ _ _ _ _
                (_get_collection_history_plain n (attr obj) PASSIVE_NO_INITIALIZE w Hplain)).
Qed.

Lemma count_no_session `{SqlFunc} q obj w :
  queries w !! q = Some obj →
  object_session w = None →
  InstanceState.has_identity (state w) && has_flag PASSIVE_NO_INITIALIZE INIT_OK = false →
  AppenderQuery.count q w
  = Ok (Counted (Z.of_nat (length (CollectionHistory.added_items
                                     (pending (attr obj) (state w))))), w).
Proof.
  intros Hq Hs Hplain. unfold AppenderQuery.count.
  rewrite (bind_Ok _ _ _ _ _ (deref_Ok _ _ _ Hq)).
  rewrite (bind_Ok _ _ _ _ _ (session_detached obj w Hs)).
  unfold DynamicAttributeImpl._get_collection_history.
  by rewrite (bind_Ok _ _ _ _ _
                (_get_collection_history_plain _ (attr obj) PASSIVE_NO_INITIALIZE w Hplain)).
Qed.

End collection_protocol.

(** X9.  Writing and reading back on a transient instance.  For an instance
    without identity and without session, [extend(items)] fires one append
    event per item, and afterwards [all()] returns the pending additions:
    those there were, followed by the new items in their order, each item
    once.  [first()] is the head of that list and [count()] its length; the
    reads change nothing. *)
Theorem extend_then_read_on_a_transient_instance `{Flags : AttributeFlags} `{SqlFunc}
    (q : positive) (obj : AppenderQueryObject) (items : list value) (w : World) :
  queries w !! q = Some obj →
  InstanceState.has_identity (state w) = false →
  object_session w = None →
  let now_pending :=
    IdentitySet.update (CollectionHistory.added_items (pending (attr obj) (state w)))
                       items in
  ∃ w', AppenderQuery.extend q items w = Ok (tt, w') ∧
        events w' = events w ++ map FiredAppend items ∧
        AppenderQuery.all q w' = Ok (now_pending, w') ∧
        AppenderQuery.first q w' = Ok (head now_pending, w') ∧
        AppenderQuery.count q w' = Ok (Counted (Z.of_nat (length now_pending)), w').
Proof.
  intros Hq Hid Hs now_pending.
  destruct (fire_all_spec (attr obj) (map (λ v, Append v None) items) w)
    as (w' & Hrun & Hpend & (Hkey & Hs' & Hq') & Hev).
  assert (queries w' !! q = Some obj) as Hq'' by (by rewrite Hq').
  assert (InstanceState.has_identity (state w') = false) as Hid'
    by (unfold InstanceState.has_identity in *; by rewrite Hkey).
  assert (object_session w' = None) as Hs'' by (by rewrite Hs').
  assert (CollectionHistory.added_items (pending (attr obj) (state w')) = now_pending)
    as Hnow.
  { rewrite Hpend. unfold now_pending. clear.
    generalize (pending (attr obj) (state w)) as c.
    induction items as [|v items IH]; intros c; [done|].
    simpl. by rewrite IH. }
  assert (_iter recursion_limit q w' = Ok (now_pending, w')) as Hiter.
  { change recursion_limit with (S 999). rewrite <-Hnow. by apply _iter_transient. }
  exists w'. split_and!.
  - by rewrite (extend_run q obj).
  - rewrite Hev. f_equal. clear. induction items as [|v items IH]; [done|].
    simpl. by rewrite IH.
  - exact Hiter.
  - unfold AppenderQuery.first, AppenderQuery._iter.
    by rewrite (bind_Ok _ _ _ _ _ Hiter).
  - rewrite <-Hnow. apply count_no_session; [done|done|by rewrite Hid'].
Qed.

Lemma extend_then_read_on_a_transient_instance_witness :
  ∃ (q : positive) (w0 w' : World),
    DynamicAttributeImpl.get (Flags := sample_flags) sample_attr 31 transient_world
      = Ok (DynamicAttributeImpl.QueryObject q, w0) ∧
    AppenderQuery.extend q [Obj 1; Obj 2; Obj 1; Obj 3] w0 = Ok (tt, w') ∧
    AppenderQuery.all (Flags := sample_flags) q w' = Ok ([Obj 1; Obj 2; Obj 3], w') ∧
    AppenderQuery.count (Flags := sample_flags)
      (H := {| execute_count := λ _ _, 0 |}) q w' = Ok (Counted 3, w').
Proof.
  pose (q := fresh (dom (queries transient_world))).
  pose (w0 := with_queries (insert q (AppenderQueryBuilder.initial sample_attr (sample_state None)))
                           transient_world).
  destruct (extend_then_read_on_a_transient_instance (Flags := sample_flags)
              (H := {| execute_count := λ _ _, 0 |})
              q (AppenderQueryBuilder.initial sample_attr (sample_state None))
              [Obj 1; Obj 2; Obj 1; Obj 3] w0 (lookup_insert_eq _ _ _) eq_refl eq_refl)
    as (w' & Hext & _ & Hall & _ & Hcount).
  exists q, w0, w'. split_and!; [reflexivity|exact Hext|exact Hall|exact Hcount].
Defined.

(** X10.  [count()] never raises for want of a session.  Without a session
    it is the number of pending additions and changes nothing, also for a
    detached instance, on which [all()] raises [DetachedInstanceError].  With
    a session whose autoflush is off, for an instance with an identity, it is
    what the engine counts for the statement of the query object, and nothing
    changes either. *)
Theorem count_with_and_without_a_session `{Flags : AttributeFlags}
    `{!AttributeFlagsLaws Flags} `{SqlFunc}
    (q : positive) (obj : AppenderQueryObject) (w : World) :
  queries w !! q = Some obj →
  (object_session w = None →
   AppenderQuery.count q w
   = Ok (Counted (Z.of_nat (length (CollectionHistory.added_items
                                      (pending (attr obj) (state w))))), w) ∧
   (InstanceState.has_identity (state w) = true →
    AppenderQuery.all q w = Raise DetachedInstanceError)) ∧
  (∀ s : Session, object_session w = Some s →
   sess_autoflush s = false →
   InstanceState.has_identity (state w) = true →
   AppenderQuery.count q w = Ok (Counted (execute_count s (_statement obj)), w)).
Proof.
  intros Hq. split.
  - intros Hs. split.
    + apply count_no_session; [done|done|apply PASSIVE_NO_INITIALIZE_plain].
    + intros Hid. unfold AppenderQuery.all, AppenderQuery._iter.
      by eapply _iter_detached.
  - intros s Hs Hquiet Hid.
    assert (after_autoflush obj s w = w) as Hw.
    { unfold after_autoflush. rewrite Hquiet. by destruct (_autoflush obj). }
    assert (AppenderQueryBuilder.session obj w = Ok (Some s, w)) as Hsess.
    { rewrite <-Hw at 2. apply session_attached; [done|by rewrite Hw]. }
    unfold AppenderQuery.count.
    rewrite (bind_Ok _ _ _ _ _ (deref_Ok _ _ _ Hq)).
    rewrite (bind_Ok _ _ _ _ _ Hsess).
    by rewrite (bind_Ok _ _ _ _ _ Hsess).
Qed.

Lemma count_with_and_without_a_session_witness :
  (∃ (q : positive) (w0 w1 : World),
     DynamicAttributeImpl.get (Flags := sample_flags) sample_attr 31 detached_world
       = Ok (DynamicAttributeImpl.QueryObject q, w0) ∧
     AppenderQuery.append q (Obj 1) w0 = Ok (tt, w1) ∧
     AppenderQuery.count (Flags := sample_flags)
       (H := {| execute_count := λ _ _, 0 |}) q w1 = Ok (Counted 1, w1) ∧
     AppenderQuery.all (Flags := sample_flags) q w1 = Raise DetachedInstanceError) ∧
  (∃ (q : positive) (w0 : World),
     DynamicAttributeImpl.get (Flags := sample_flags) sample_attr 31
       (quiet_world [Obj 1; Obj 2])
       = Ok (DynamicAttributeImpl.QueryObject q, w0) ∧
     AppenderQuery.count (Flags := sample_flags)
       (H := {| execute_count := λ s stmt, Z.of_nat (length (sess_execute s stmt)) |})
       q w0 = Ok (Counted 2, w0)).
Proof.
  split.
  - pose (q := fresh (dom (queries detached_world))).
    pose (w0 := with_queries
                  (insert q (AppenderQueryBuilder.initial sample_attr (sample_state None)))
                  detached_world).
    assert (∃ w1, AppenderQuery.append q (Obj 1) w0 = Ok (tt, w1) ∧
                  queries w1 !! q
                    = Some (AppenderQueryBuilder.initial sample_attr (sample_state None)) ∧
                  object_session w1 = None ∧
                  InstanceState.has_identity (state w1) = true ∧
                  pending sample_attr (state w1)
                    = CollectionHistory.mk [Obj 1] [] [] false)
      as (w1 & Happ & Hq1 & Hs1 & Hid1 & Hp1).
    { eexists. split; [vm_compute; reflexivity|]. by split_and!. }
    destruct (count_with_and_without_a_session (Flags := sample_flags)
                (AttributeFlagsLaws0 := sample_flags_laws)
                (H := {| execute_count := λ _ _, 0 |})
                q (AppenderQueryBuilder.initial sample_attr (sample_state None)) w1 Hq1)
      as [Hnone _].
    destruct (Hnone Hs1) as [Hcount Hall].
    exists q, w0, w1. split_and!; [reflexivity|exact Happ| |exact (Hall Hid1)].
    rewrite Hcount. cbn [attr AppenderQueryBuilder.initial]. by rewrite Hp1.
  - pose (w := quiet_world [Obj 1; Obj 2]).
    pose (q := fresh (dom (queries w))).
    pose (obj := AppenderQueryBuilder.initial sample_attr (state w)).
    pose (w0 := with_queries (insert q obj) w).
    destruct (count_with_and_without_a_session (Flags := sample_flags)
                (AttributeFlagsLaws0 := sample_flags_laws)
                (H := {| execute_count :=
                           λ s stmt, Z.of_nat (length (sess_execute s stmt)) |})
                q obj w0 (lookup_insert_eq _ _ _)) as [_ Hsome].
    exists q, w0. split; [reflexivity|].
    exact (Hsome (quiet_session [Obj 1; Obj 2]) eq_refl eq_refl eq_refl).
Defined.

(** ** Chains of builder calls *)

Lemma requested_attr `{SqlUtil} (c : builder_call) (obj : AppenderQueryObject) :
  attr (requested c obj) = attr obj.
Proof. by destruct c. Qed.

(** X11.  A chain of builder calls [q.m1(...).m2(...)...] runs to its end
    and returns a query object that holds the requested mutations applied in
    the order of the chain; it is bound to the same attribute.  The receiver
    and every query object that existed before the chain are as they were,
    and so are the instance and the events fired. *)
Theorem builder_chain_applies_in_order `{SqlUtil} (cs : list builder_call)
    (self : positive) (obj : AppenderQueryObject) (w : World) :
  queries w !! self = Some obj →
  ∃ (q' : positive) (w' : World),
    call_chain cs self w = Ok (q', w') ∧
    queries w' !! q' = Some (foldl (λ o c, requested c o) obj cs) ∧
    attr (foldl (λ o c, requested c o) obj cs) = attr obj ∧
    (∀ other : positive, is_Some (queries w !! other) →
                         queries w' !! other = queries w !! other) ∧
    state w' = state w ∧ dict_ w' = dict_ w ∧ events w' = events w.
Proof.
  revert self obj w. induction cs as [|c cs IH]; intros self obj w Hq.
  - exists self, w. by split_and!.
  - pose (q1 := fresh (dom (queries w))).
    pose (w1 := with_queries (insert q1 (requested c obj)) w).
    assert (queries w !! q1 = None) as Hfresh by apply not_elem_of_dom, is_fresh.
    destruct (IH q1 (requested c obj) w1 (lookup_insert_eq _ _ _))
      as (q' & w' & Hrun & Hq' & Hattr & Hothers & Hst & Hd & Hev).
    exists q', w'. cbn [call_chain foldl].
    rewrite (bind_Ok _ _ _ _ _ (call_builder_run c self obj w Hq)).
    split_and!; try done.
    + by rewrite Hattr, requested_attr.
    + intros other Hother. rewrite Hothers.
      * simpl. apply lookup_insert_ne. intros <-. rewrite Hfresh in Hother.
        by destruct Hother.
      * simpl. rewrite lookup_insert_ne; [done|]. intros <-.
        rewrite Hfresh in Hother. by destruct Hother.
Qed.

Lemma builder_chain_applies_in_order_witness :
  ∃ (q0 q' : positive) (w0 w' : World),
    DynamicAttributeImpl.get (Flags := sample_flags) sample_attr 31 transient_world
      = Ok (DynamicAttributeImpl.QueryObject q0, w0) ∧
    call_chain (H := sample_sql_util)
      [call_where [20%positive]; call_order_by [21%positive]; call_slice (Some 2) (Some 5)]
      q0 w0 = Ok (q', w') ∧
    _statement <$> queries w' !! q'
      = Some (Query.offset
                (Query.limit
                   (Query.order_by
                      (Query.where_ (Query.where_ (Query.new [10%positive]) [105%positive])
                                    [20%positive])
                      [21%positive])
                   (Some 3))
                (Some 2)) ∧
    queries w' !! q0 = Some (AppenderQueryBuilder.initial sample_attr (sample_state None)).
Proof.
  pose (q0 := fresh (dom (queries transient_world))).
  pose (w0 := with_queries (insert q0 (AppenderQueryBuilder.initial sample_attr (sample_state None)))
                           transient_world).
  destruct (builder_chain_applies_in_order (H := sample_sql_util)
              [call_where [20%positive]; call_order_by [21%positive];
               call_slice (Some 2) (Some 5)]
              q0 (AppenderQueryBuilder.initial sample_attr (sample_state None)) w0 (lookup_insert_eq _ _ _))
    as (q' & w' & Hrun & Hq' & _ & Hothers & _).
  exists q0, q', w0, w'. split_and!; [reflexivity|exact Hrun| |].
  - rewrite Hq'. reflexivity.
  - rewrite Hothers; [apply lookup_insert_eq|].
    exists (AppenderQueryBuilder.initial sample_attr (sample_state None)). apply lookup_insert_eq.
Defined.

Lemma get_history_reconciles_without_flushing_witness :
  ∃ (w1 w2 : World),
    fire_all sample_attr [Remove (Obj 1) None; Append (Obj 3) None; Remove (Obj 7) None]
      (quiet_world [Obj 1; Obj 2]) = Ok (tt, w1) ∧
    DynamicAttributeImpl.get_history (Flags := sample_flags) sample_attr 31 w1
      = Ok ({| added := [Obj 3]; unchanged := [Obj 2]; deleted := [Obj 1] |}, w2) ∧
    state w2 = state w1 ∧
    DynamicAttributeImpl.get_history (Flags := sample_flags) sample_attr 22 w1
      = Ok ({| added := [Obj 3]; unchanged := []; deleted := [Obj 1; Obj 7] |}, w1).
Proof.
  assert (∃ w1,
            fire_all sample_attr
              [Remove (Obj 1) None; Append (Obj 3) None; Remove (Obj 7) None]
              (quiet_world [Obj 1; Obj 2]) = Ok (tt, w1) ∧
            InstanceState.has_identity (state w1) = true ∧
            object_session w1 = Some (quiet_session [Obj 1; Obj 2]) ∧
            pending sample_attr (state w1)
              = CollectionHistory.mk [Obj 3] [Obj 1; Obj 7] [] false)
    as (w1 & Hw1 & Hid & Hs & Hp).
  { eexists. split; [vm_compute; reflexivity|]. by split_and!. }
  destruct (get_history_reconciles_without_flushing (Flags := sample_flags)
              sample_attr 31 w1) as (Hrec & _ & _).
  destruct (Hrec Hid eq_refl _ Hs eq_refl) as (w2 & Hget & Hst & _).
  destruct (get_history_reconciles_without_flushing (Flags := sample_flags)
              sample_attr 22 w1) as (_ & _ & Hplain).
  exists w1, w2. split_and!; [exact Hw1| |exact Hst|].
  - rewrite Hget, Hp. reflexivity.
  - rewrite Hplain, ?Hp; [reflexivity|]. rewrite Hid. reflexivity.
Defined.

(** ** The version of the oracledb driver *)

Section oracledb_version.
Import oracledb.
Context `{Interp : Interpreter}.
Implicit Types (s g tail : list N).

Lemma span_digits_app g tail :
  all_digits g → no_digit_ahead tail → span_digits (g ++ tail) = (g, tail).
Proof.
  intros Hg Htail. induction Hg as [|c g [d Hd] Hg IH]; simpl.
  - destruct tail as [|c tail]; [done|]. simpl in *. by rewrite Htail.
  - by rewrite Hd, IH.
Qed.

Lemma no_digit_ahead_period `{!InterpreterLaws Interp} tail :
  no_digit_ahead (period :: tail).
Proof. apply period_is_no_digit. Qed.

(** The test [oracledb_ver < (1,) and oracledb_ver > (0, 0, 0)] on a
    version of two components. *)
Lemma unsupported_test_2 (a b : N) :
  tuple_lt [a; b] [1%N] && tuple_lt [0; 0; 0]%N [a; b]
  = (a =? 0)%N && (0 <? b)%N.
Proof.
  cbn [tuple_lt]. destruct (N.ltb_spec a 1), (N.eqb_spec a 1), (N.eqb_spec a 0),
    (N.ltb_spec 0 a), (N.eqb_spec 0 a), (N.ltb_spec 0 b), (N.eqb_spec 0 b);
    cbn [andb orb]; try reflexivity; lia.
Qed.

(** The same test on a version of three components. *)
Lemma unsupported_test_3 (a b c : N) :
  tuple_lt [a; b; c] [1%N] && tuple_lt [0; 0; 0]%N [a; b; c]
  = (a =? 0)%N && ((0 <? b)%N || (0 <? c)%N).
Proof.
  cbn [tuple_lt]. destruct (N.ltb_spec a 1), (N.eqb_spec a 1), (N.eqb_spec a 0),
    (N.ltb_spec 0 a), (N.eqb_spec 0 a), (N.ltb_spec 0 b), (N.eqb_spec 0 b),
    (N.ltb_spec 0 c), (N.eqb_spec 0 c);
    cbn [andb orb]; try reflexivity; lia.
Qed.

Lemma span_digits_all_digits s : all_digits (span_digits s).1.
Proof.
  induction s as [|c s IH]; simpl; [constructor|].
  destruct (digit_value c) eqn:E; [|constructor].
  destruct (span_digits s) as [run rest]. simpl in *.
  constructor; [by rewrite E|done].
Qed.

(** Every group of a match is a run of digits. *)
Lemma re_match_version_groups s m :
  re_match_version s = Some m → Forall all_digits (present_groups m).
Proof.
  unfold re_match_version.
  pose proof (span_digits_all_digits s) as H1.
  destruct (span_digits s) as [[|c1 g1] [|c after1]]; try done.
  destruct (c =? period)%N; [|done].
  pose proof (span_digits_all_digits after1) as H2.
  destruct (span_digits after1) as [[|c2 g2] after2]; [done|].
  simpl in H1, H2.
  destruct after2 as [|c' after3].
  { intros [= <-]. repeat (apply Forall_cons_2; [assumption|]). by apply Forall_nil. }
  destruct (c' =? period)%N.
  - pose proof (span_digits_all_digits after3) as H3.
    destruct (span_digits after3) as [[|c3 g3] after4]; simpl in H3; intros [= <-];
      repeat (apply Forall_cons_2; [assumption|]); by apply Forall_nil.
  - intros [= <-]. repeat (apply Forall_cons_2; [assumption|]). by apply Forall_nil.
Qed.

(** [int] on a run of digits: refused when too long, its value otherwise. *)
Lemma int_of_group_digits g :
  all_digits g →
  int_of_group g = if too_long g then None else Some (group_value g).
Proof.
  intros Hg. unfold int_of_group, too_long, group_value.
  destruct (negb _ && _); [done|].
  assert (∀ a0 : N,
            foldl (λ acc c, a ← acc; d ← digit_value c; Some (10 * a + d)%N) (Some a0) g
            = Some (foldl (λ a c, 10 * a + default 0 (digit_value c))%N a0 g)) as Hfold;
    [|apply Hfold].
  induction Hg as [|c g [d Hd] _ IH]; intros a0; [done|].
  cbn [foldl]. rewrite Hd. cbn [mbind option_bind default]. apply IH.
Qed.

End oracledb_version.

(** X12.  How [_load_version] ends, for every argument.  Without a driver
    module, and for a version string that does not start with digits, a full
    stop and digits, the version is (0, 0, 0) and nothing is raised.  For a
    string that does, [int] raises [ValueError] when one of the groups has
    more digits than the interpreter allows, and nothing is assigned.
    Otherwise the version holds the two or three numbers the groups denote,
    and [InvalidRequestError] is raised exactly when the first number is 0
    and a later one is not: versions from 1 on are accepted, and so are 0.0
    and 0.0.0. *)
Theorem load_version_accepts `{Interp : oracledb.Interpreter} :
  oracledb._load_version None = oracledb.Loaded [0; 0; 0]%N ∧
  ∀ version_string : list N,
    oracledb._load_version (Some version_string)
    = match oracledb.re_match_version version_string with
      | None => oracledb.Loaded [0; 0; 0]%N
      | Some m =>
          let groups := oracledb.present_groups m in
          let oracledb_ver := map oracledb.group_value groups in
          if existsb oracledb.too_long groups then oracledb.IntValueError
          else if (hd 0 oracledb_ver =? 0)%N && existsb (N.ltb 0) (tl oracledb_ver)
               then oracledb.Unsupported oracledb_ver
               else oracledb.Loaded oracledb_ver
      end.
Proof.
  split; [reflexivity|]. intros v.
  destruct (oracledb.re_match_version v) as [[[g1 g2] g3]|] eqn:Hv.
  2:{ unfold oracledb._load_version. by rewrite Hv. }
  pose proof (re_match_version_groups _ _ Hv) as Hd.
  unfold oracledb._load_version. rewrite Hv.
  cbn [oracledb.present_groups] in *.
  apply Forall_cons in Hd as [H1 Hd]. apply Forall_cons in Hd as [H2 Hd].
  rewrite (int_of_group_digits g1 H1), (int_of_group_digits g2 H2).
  destruct g3 as [g3|].
  - apply Forall_cons in Hd as [H3 _].
    rewrite (int_of_group_digits g3 H3).
    cbv zeta. cbn [existsb map hd tl].
    destruct (oracledb.too_long g1); [done|].
    destruct (oracledb.too_long g2); [done|].
    destruct (oracledb.too_long g3); [done|].
    cbn [mbind option_bind orb]. rewrite unsupported_test_3.
    by rewrite orb_false_r.
  - cbv zeta. cbn [existsb map hd tl].
    destruct (oracledb.too_long g1); [done|].
    destruct (oracledb.too_long g2); [done|].
    cbn [mbind option_bind orb]. rewrite unsupported_test_2.
    by rewrite orb_false_r.
Qed.

Lemma load_version_accepts_witness :
  (* "2.0.1", "0.9", "0.0" and "thin"; "1111.0" when [int] reads three
     digits at most *)
  oracledb._load_version (H := oracledb.ascii_interpreter)
    (Some [50; 46; 48; 46; 49]%N) = oracledb.Loaded [2; 0; 1]%N ∧
  oracledb._load_version (H := oracledb.ascii_interpreter)
    (Some [48; 46; 57]%N) = oracledb.Unsupported [0; 9]%N ∧
  oracledb._load_version (H := oracledb.ascii_interpreter)
    (Some [48; 46; 48]%N) = oracledb.Loaded [0; 0]%N ∧
  oracledb._load_version (H := oracledb.ascii_interpreter)
    (Some [116; 104; 105; 110]%N) = oracledb.Loaded [0; 0; 0]%N ∧
  oracledb._load_version
    (H := {| oracledb.digit_value :=
               oracledb.digit_value (Interpreter := oracledb.ascii_interpreter);
             oracledb.int_max_str_digits := 3 |})
    (Some [49; 49; 49; 49; 46; 48]%N) = oracledb.IntValueError.
Proof.
  destruct (load_version_accepts (Interp := oracledb.ascii_interpreter)) as [_ Hascii].
  destruct (load_version_accepts
              (Interp := {| oracledb.digit_value :=
                              oracledb.digit_value
                                (Interpreter := oracledb.ascii_interpreter);
                            oracledb.int_max_str_digits := 3 |})) as [_ Hshort].
  split_and!.
  - exact (Hascii [50; 46; 48; 46; 49]%N).
  - exact (Hascii [48; 46; 57]%N).
  - exact (Hascii [48; 46; 48]%N).
  - exact (Hascii [116; 104; 105; 110]%N).
  - exact (Hshort [49; 49; 49; 49; 46; 48]%N).
Defined.

(** X13.  How a version string is read.  A string made of a run of digits,
    a full stop, a second run of digits and a tail that starts with no digit
    matches, with the two runs as groups 1 and 2, whatever the tail holds
    after that.  Group 3 is the run of digits that follows a second full stop
    when there is one, and is missing otherwise. *)
Theorem version_string_groups `{Interp : oracledb.Interpreter}
    `{!oracledb.InterpreterLaws Interp} (g1 g2 : list N) :
  g1 ≠ [] → g2 ≠ [] → oracledb.all_digits g1 → oracledb.all_digits g2 →
  (∀ (g3 tail : list N),
     g3 ≠ [] → oracledb.all_digits g3 → oracledb.no_digit_ahead tail →
     oracledb.re_match_version
       (g1 ++ oracledb.period :: g2 ++ oracledb.period :: g3 ++ tail)
     = Some (g1, g2, Some g3)) ∧
  (∀ tail : list N,
     oracledb.no_digit_ahead tail →
     match tail with
     | c :: after => c = oracledb.period → oracledb.no_digit_ahead after
     | [] => True
     end →
     oracledb.re_match_version (g1 ++ oracledb.period :: g2 ++ tail)
     = Some (g1, g2, None)).
Proof.
  intros Hg1 Hg2 Hd1 Hd2. split.
  - intros g3 tail Hg3 Hd3 Htail. unfold oracledb.re_match_version.
    rewrite (span_digits_app g1) by (done || apply no_digit_ahead_period).
    destruct g1 as [|c1 g1]; [done|]. rewrite N.eqb_refl.
    rewrite (span_digits_app g2) by (done || apply no_digit_ahead_period).
    destruct g2 as [|c2 g2]; [done|]. rewrite N.eqb_refl.
    rewrite (span_digits_app g3) by done.
    by destruct g3.
  - intros tail Htail Hafter. unfold oracledb.re_match_version.
    rewrite (span_digits_app g1) by (done || apply no_digit_ahead_period).
    destruct g1 as [|c1 g1]; [done|]. rewrite N.eqb_refl.
    rewrite (span_digits_app g2) by done.
    destruct g2 as [|c2 g2]; [done|].
    destruct tail as [|c after]; [done|].
    destruct (N.eqb_spec c oracledb.period) as [->|]; [|done].
    specialize (Hafter eq_refl).
    destruct after as [|c' after]; [done|]. simpl in *. by rewrite Hafter.
Qed.

Lemma version_string_groups_witness :
  (* "21.3.0b1" and "1.4.dev" *)
  oracledb.re_match_version (H := oracledb.ascii_interpreter)
    ([50; 49] ++ oracledb.period :: [51] ++ oracledb.period :: [48] ++ [98; 49])%N
  = Some ([50; 49], [51], Some [48])%N ∧
  oracledb.re_match_version (H := oracledb.ascii_interpreter)
    ([49] ++ oracledb.period :: [52] ++ [46; 100; 101; 118])%N
  = Some ([49], [52], None)%N.
Proof.
  assert (oracledb.InterpreterLaws oracledb.ascii_interpreter) as Hlaws by (by split).
  assert (∀ g : list N, forallb (λ c, (48 <=? c) && (c <=? 57))%N g = true →
            oracledb.all_digits (H := oracledb.ascii_interpreter) g) as Hdigits.
  { intros g Hg. unfold oracledb.all_digits. apply Forall_forall. intros c Hc.
    apply list_elem_of_In in Hc.
    pose proof (proj1 (forallb_forall _ g) Hg c Hc) as Hin.
    simpl. rewrite Hin. by eexists. }
  destruct (version_string_groups (Interp := oracledb.ascii_interpreter)
              [50; 49]%N [51]%N) as [H3 _]; [done|done|by apply Hdigits..|].
  destruct (version_string_groups (Interp := oracledb.ascii_interpreter)
              [49]%N [52]%N) as [_ H2]; [done|done|by apply Hdigits..|].
  split.
  - apply (H3 [48]%N [98; 49]%N); [done|by apply Hdigits|reflexivity].
  - apply (H2 [46; 100; 101; 118]%N); [reflexivity|]. intros _. reflexivity.
Defined.

(** ** get_collection *)

(** X14.  [get_collection] reconciles whenever the instance has an identity
    and the flag has [INIT_OK], whether or not the flag has [SQL_OK]: the
    query runs in both cases, and without a session the call raises
    [DetachedInstanceError] in both.  With a session whose autoflush is off,
    [SQL_OK] only decides what is returned of the reconciled changes: the
    pending additions without it, the pending additions followed by the rows
    that are not among them with it; the instance and the events fired stay
    as they are.  [get], called with a flag without [SQL_OK], asks for no
    initialisation and returns the pending additions of the same detached
    instance. *)
Theorem get_collection_reconciles_whatever_SQL_OK `{Flags : AttributeFlags}
    `{!AttributeFlagsLaws Flags} (self : AttributeImpl.t) (passive : Z) (w : World) :
  InstanceState.has_identity (state w) = true →
  has_flag passive INIT_OK = true →
  (object_session w = None →
   DynamicAttributeImpl.get_collection self passive w = Raise DetachedInstanceError ∧
   (has_flag passive SQL_OK = false →
    DynamicAttributeImpl.get self passive w
    = Ok (DynamicAttributeImpl.Items
            (CollectionHistory.added_items (pending self (state w))), w))) ∧
  (∀ s : Session, object_session w = Some s →
   sess_autoflush s = false →
   let rows := sess_execute s (_statement (AppenderQueryBuilder.initial self (state w))) in
   ∃ w', DynamicAttributeImpl.get_collection self passive w
         = Ok (if has_flag passive SQL_OK
               then IdentitySet.update
                      (CollectionHistory.added_items (pending self (state w)))
                      (IdentitySet.of_iterable rows)
               else CollectionHistory.added_items (pending self (state w)), w') ∧
         state w' = state w ∧ events w' = events w).
Proof.
  intros Hid Hflag. split.
  - intros Hs. split.
    + unfold DynamicAttributeImpl.get_collection,
        DynamicAttributeImpl._get_collection_history.
      change recursion_limit with (S 999).
      destruct (negb (has_flag passive SQL_OK)); unfold mbind, M_bind;
        by rewrite (_get_collection_history_detached 999 self passive w Hid Hflag Hs).
    + apply get_without_SQL.
  - intros s Hs _ rows.
    destruct (_get_collection_history_reconciling 999 self passive w s Hid Hflag Hs)
      as (w' & Hrun & Hst & _ & Hev & _).
    exists w'. split; [|done].
    unfold DynamicAttributeImpl.get_collection,
      DynamicAttributeImpl._get_collection_history.
    change recursion_limit with (S 999).
    destruct (has_flag passive SQL_OK); cbn [negb];
      rewrite (bind_Ok _ _ _ _ _ Hrun); reflexivity.
Qed.

Lemma get_collection_reconciles_whatever_SQL_OK_witness :
  DynamicAttributeImpl.get_collection (Flags := sample_flags) sample_attr 29 detached_world
    = Raise DetachedInstanceError ∧
  DynamicAttributeImpl.get (Flags := sample_flags) sample_attr 29 detached_world
    = Ok (DynamicAttributeImpl.Items [], detached_world) ∧
  (∃ w', DynamicAttributeImpl.get_collection (Flags := sample_flags) sample_attr 31
           (quiet_world [Obj 1; Obj 2])
         = Ok ([Obj 1; Obj 2], w')) ∧
  (∃ w', DynamicAttributeImpl.get_collection (Flags := sample_flags) sample_attr 29
           (quiet_world [Obj 1; Obj 2])
         = Ok ([], w')).
Proof.
  destruct (get_collection_reconciles_whatever_SQL_OK (Flags := sample_flags)
              (AttributeFlagsLaws0 := sample_flags_laws) sample_attr 29 detached_world
              eq_refl eq_refl) as [Hnone _].
  destruct (Hnone eq_refl) as [Hraise Hget].
  destruct (get_collection_reconciles_whatever_SQL_OK (Flags := sample_flags)
              (AttributeFlagsLaws0 := sample_flags_laws) sample_attr 31
              (quiet_world [Obj 1; Obj 2]) eq_refl eq_refl) as [_ Hsome].
  destruct (Hsome _ eq_refl eq_refl) as (w' & Hrun & _).
  destruct (get_collection_reconciles_whatever_SQL_OK (Flags := sample_flags)
              (AttributeFlagsLaws0 := sample_flags_laws) sample_attr 29
              (quiet_world [Obj 1; Obj 2]) eq_refl eq_refl) as [_ Hsome'].
  destruct (Hsome' _ eq_refl eq_refl) as (w'' & Hrun' & _).
  split_and!; [exact Hraise|exact (Hget eq_refl)| |].
  - exists w'. exact Hrun.
  - exists w''. exact Hrun'.
Defined.

(** ** Listeners *)

(** X15.  Append listeners cannot change what is recorded.  Whatever the
    listeners return, [fire_append_event] records the value it was given in
    the pending additions; the value the listeners return is the one
    [sethasparent] is called with, when parents are tracked and that value is
    not [None]. *)
Theorem append_listeners_do_not_change_the_record (self : AttributeImpl.t)
    (x : value) (initiator : option Initiator) (w : World) :
  let token := DynamicAttributeImpl.effective_initiator initiator
                 (AttributeImpl._append_token self) in
  let returned := foldl (λ v fn, fn v token) x (AttributeImpl.dispatch_append self) in
  ∃ w', DynamicAttributeImpl.fire_append_event self x initiator None w = Ok (tt, w') ∧
        pending self (state w')
          = CollectionHistory.add_added x (pending self (state w)) ∧
        events w' = events w ++ [FiredAppend x] ∧
        hasparent w'
          = hasparent w ++
            (if AttributeImpl.trackparent self && is_not_None returned
             then [(returned, true)] else []).
Proof.
  intros token returned.
  destruct (fire_spec self (Append x initiator) w) as (w' & Hrun & Hcs & _ & Hev).
  exists w'. split; [exact Hrun|]. split; [by apply (pending_after self w w')|].
  split; [exact Hev|].
  destruct (_modified_event_spec self w) as (w1 & Hmod & _ & _ & _ & Hhp).
  simpl in Hrun. unfold DynamicAttributeImpl.fire_append_event in Hrun.
  rewrite (bind_Ok _ _ _ _ _ Hmod) in Hrun.
  unfold DynamicAttributeImpl.update_history, modify, mbind, M_bind, mret, M_ret in Hrun.
  fold token in Hrun. fold returned in Hrun.
  destruct (AttributeImpl.trackparent self && is_not_None returned);
    injection Hrun as <-; simpl; by rewrite Hhp, ?app_nil_r.
Qed.

Lemma append_listeners_do_not_change_the_record_witness :
  let self := AttributeImpl.mk 1 "addresses" 2 true [λ _ _, Obj 9; λ v _, v] 0
                10%positive [] sample_property 3 4 in
  ∃ w', DynamicAttributeImpl.fire_append_event self (Obj 1) None None transient_world
        = Ok (tt, w') ∧
        pending self (state w') = CollectionHistory.mk [Obj 1] [] [] false ∧
        hasparent w' = [(Obj 9, true)].
Proof.
  intros self.
  destruct (append_listeners_do_not_change_the_record self (Obj 1) None transient_world)
    as (w' & Hrun & Hpend & _ & Hhp).
  exists w'. split_and!; [exact Hrun|exact Hpend|exact Hhp].
Defined.
